(** * HealthyMealTrack: the meal health-risk analysis engine

    A shallow embedding of the decision logic of the repository:

    - [GoogleVisionService] (the service class with [extractFoodItems],
      [isFoodRelated], [removeDuplicates], [getNutritionalData],
      [getFoodNutrition], [parseEdamamResponse], [getLocalNutritionData],
      [getFallbackNutrition] and [analyzeHealthRisks]);
    - [Meal] (the [pre('save')] hook of [models/Meal.js]).

    Modelling conventions.
    - A JavaScript number is a rational [Q]: the arithmetic of the engine is
      [+], [*], [-] and comparisons against decimal literals, which are taken
      exactly.  [NaN] only arises from a missing field and is written out as
      [None] where the source can meet it.
    - A JavaScript object used as a dictionary (a nutrient vector) is a
      [gmap string Q]; a missing key is [undefined].
    - A value that may be [null]/[undefined] is an [option].
    - Strings are [string]; [toLowerCase] acts on the ASCII letters.
    - Arrays are lists; [Set] is a [gset]. *)

From Stdlib Require Import QArith Qround Qabs Lqa Ascii DecimalString.
From stdpp Require Import gmap strings list sorting.

Set Default Proof Using "Type".

(** ** The JavaScript primitives the engine relies on *)

Module JS.

(** [x > y] on numbers. *)
Definition gt (x y : Q) : bool := negb (Qle_bool x y).

(** Truthiness of a number: every number but [0] is truthy. *)
Definition truthy (x : Q) : bool := negb (Qeq_bool x 0).

(** [x || d] for a numeric property that may be [undefined]. *)
Definition or_default (x : option Q) (d : Q) : Q :=
  match x with
  | Some v => if truthy v then v else d
  | None => d
  end.

(** [String.prototype.toLowerCase], on ASCII. *)
Definition lowerChar (c : ascii) : ascii :=
  let n := N_of_ascii c in
  if ((65 <=? n) && (n <=? 90))%N then ascii_of_N (n + 32) else c.

Fixpoint toLowerCase (s : string) : string :=
  match s with
  | EmptyString => EmptyString
  | String c rest => String (lowerChar c) (toLowerCase rest)
  end.

(** [String.prototype.includes]: [k] occurs in [s] as a substring. *)
Fixpoint includes (s k : string) : bool :=
  String.prefix k s ||
  match s with
  | EmptyString => false
  | String _ rest => includes rest k
  end.

(** [Number.prototype.toFixed(digits)], for magnitudes below [1e21]:
    the nearest multiple of [10^-digits], ties to the larger magnitude,
    printed with exactly [digits] decimals. *)
Definition digitsOf (n : Z) : string :=
  NilZero.string_of_uint (N.to_uint (Z.to_N n)).

Fixpoint zeros (k : nat) : string :=
  match k with
  | O => EmptyString
  | S k' => String "0" (zeros k')
  end.

Definition toFixed (x : Q) (digits : nat) : string :=
  let s := if Qle_bool 0 x then EmptyString else "-"%string in
  let ax := Qabs x in
  let n := Qfloor (ax * inject_Z (10 ^ Z.of_nat digits) + 0.5) in
  let m := digitsOf n in
  let k := String.length m in
  let m := if (k <=? digits)%nat
           then String.append (zeros (digits + 1 - k)) m else m in
  let k := String.length m in
  match digits with
  | O => String.append s m
  | _ =>
      String.append s
        (String.append (String.substring 0 (k - digits) m)
           (String.append "." (String.substring (k - digits) digits m)))
  end.

(** [Array.prototype.sort(compareFn)]: a stable sort.  The comparator
    yields a number, or [None] for [NaN], which the sort reads as [+0];
    [a] stays in front of [b] unless [compareFn a b > 0]. *)
Definition keepsOrder {A} (compareFn : A -> A -> option Q) (a b : A) : bool :=
  match compareFn a b with
  | Some v => Qle_bool v 0
  | None => true
  end.

Fixpoint insert {A} (compareFn : A -> A -> option Q) (a : A) (l : list A)
  : list A :=
  match l with
  | [] => [a]
  | b :: rest =>
      if keepsOrder compareFn a b then a :: b :: rest
      else b :: insert compareFn a rest
  end.

Fixpoint sort {A} (compareFn : A -> A -> option Q) (l : list A) : list A :=
  match l with
  | [] => []
  | a :: rest => insert compareFn a (sort compareFn rest)
  end.

(** [Array.prototype.slice(0, n)]. *)
Definition slice0 {A} (n : nat) (l : list A) : list A := take n l.

End JS.

(** ** Data model *)

(** A label annotation of the vision response. *)
Record LabelAnnotation := {
  description : string;
  score : Q
}.

(** The bounding polygon of a localized object is carried along untouched. *)
Record BoundingPoly := { normalizedVertices : list (Q * Q) }.

(** A localized object annotation of the vision response. *)
Record ObjectAnnotation := {
  obj_name : string;
  obj_score : Q;
  boundingPoly : option BoundingPoly
}.

(** The vision response; either annotation array may be missing. *)
Record VisionResults := {
  labelAnnotations : option (list LabelAnnotation);
  localizedObjectAnnotations : option (list ObjectAnnotation)
}.

Inductive Source := label | object.

(** A recognised food.  [confidence] is a property of a JS object: the
    extractor always sets it, other callers of the aggregator may not. *)
Record FoodItem := {
  name : string;
  confidence : option Q;
  source : Source;
  boundingBox : option BoundingPoly
}.

(** A nutrient vector: nutrient key to amount. *)
Abbreviation Nutrition := (gmap string Q).

Inductive RiskType :=
  high_carbs | high_sugar | high_sodium | high_potassium | high_fat
  | high_calories.

Inductive Severity := low | warning | danger.

Record RiskFinding := {
  type : RiskType;
  severity : Severity;
  message : string;
  value : Q;
  threshold : Q
}.

(** An entry of the [warnings] list. *)
Record Warning := {
  w_type : RiskType;
  w_message : string
}.

Record HealthAnalysis := {
  risks : list RiskFinding;
  warnings : list Warning
}.

Record HealthCondition := {
  condition : string;
  details : string
}.

(** The part of the user document the engine reads. *)
Record UserProfile := {
  healthConditions : option (list HealthCondition)
}.

#[global] Instance RiskType_eq_dec : EqDecision RiskType.
Proof. solve_decision. Defined.

#[global] Instance Severity_eq_dec : EqDecision Severity.
Proof. solve_decision. Defined.

(** The Edamam response, as far as [parseEdamamResponse] reads it. *)
Record EdamamNutrient := { quantity : option Q }.

Record EdamamData := {
  totalNutrients : option (gmap string EdamamNutrient)
}.

(** What [axios.get] does for a food name: it throws (network error,
    timeout, error status) or it resolves with a response whose [data] may
    be missing. *)
Inductive AxiosOutcome :=
  | axiosThrows
  | axiosResponds (data : option EdamamData).

(** The surroundings of the service: its API key and the nutrition API. *)
Record Env := {
  nutritionApiKey : option string;
  axiosGet : string -> AxiosOutcome
}.

(** An element of the array [Promise.allSettled] resolves to. *)
Inductive SettledResult :=
  | fulfilled (result_value : Nutrition)
  | rejected.

(** The priority of a recommendation. *)
Module Priority.
Inductive t := low | medium | high.
End Priority.

(** An entry of the [recommendations] list; its [type] is always the
    string ["dietary"]. *)
Record Recommendation := {
  rec_type : string;
  rec_message : string;
  priority : Priority.t
}.

Inductive AnalysisStatus := pending | processing | completed | failed.

(** What the vision client does for an image: it throws with a message, or
    it resolves with a response. *)
Inductive VisionOutcome :=
  | visionThrows (error_message : string)
  | visionResolves (result : VisionResults).

(** The object [analyzeMealImage] returns. *)
Module AnalysisResult.
Record t := {
  recognizedFoods : list FoodItem;
  nutrition : Nutrition;
  healthRisks : list RiskFinding;
  warnings : list Warning;
  recommendations : list Recommendation;
  processingTime : Z;
  analysisStatus : AnalysisStatus
}.
End AnalysisResult.

#[global] Instance Qeq_decision (x y : Q) : Decision (x == y)%Q := Qeq_dec x y.

(** ** The service *)

Module GoogleVisionService.

(** The vocabulary of [isFoodRelated]. *)
Definition foodKeywords : list string :=
  [ "food"; "dish"; "meal"; "cuisine"; "ingredient"; "fruit"; "vegetable";
    "meat"; "fish"; "chicken"; "beef"; "pork"; "lamb"; "rice"; "pasta";
    "bread"; "cake"; "dessert"; "soup"; "salad"; "sandwich"; "pizza";
    "burger"; "steak"; "sushi"; "curry"; "noodles"; "potato"; "tomato";
    "onion"; "garlic"; "carrot"; "broccoli"; "spinach"; "lettuce";
    "apple"; "banana"; "orange"; "grape"; "strawberry"; "blueberry";
    "milk"; "cheese"; "yogurt"; "egg"; "butter"; "oil"; "sauce";
    "cooking"; "kitchen"; "restaurant"; "dining"; "plate"; "bowl" ]%string.

Definition isFoodRelated (label : string) : bool :=
  let lowerLabel := JS.toLowerCase label in
  existsb (fun keyword => JS.includes lowerLabel keyword) foodKeywords.

(** [removeDuplicates]: the filter callback threads the [seen] set. *)
Fixpoint removeDuplicatesFrom (seen : gset string) (foodItems : list FoodItem)
  : list FoodItem :=
  match foodItems with
  | [] => []
  | item :: rest =>
      let key := name item in
      if decide (key ∈ seen) then removeDuplicatesFrom seen rest
      else item :: removeDuplicatesFrom ({[ key ]} ∪ seen) rest
  end.

Definition removeDuplicates (foodItems : list FoodItem) : list FoodItem :=
  removeDuplicatesFrom ∅ foodItems.

(** The item pushed for a label annotation. *)
Definition labelItem (l : LabelAnnotation) : FoodItem :=
  {| name := JS.toLowerCase (description l);
     confidence := Some (score l);
     source := label;
     boundingBox := None |}.

(** The item pushed for a localized object annotation. *)
Definition objectItem (obj : ObjectAnnotation) : FoodItem :=
  {| name := JS.toLowerCase (obj_name obj);
     confidence := Some (obj_score obj);
     source := object;
     boundingBox := boundingPoly obj |}.

(** The body of the first [forEach] of [extractFoodItems]. *)
Definition pushLabel (foodItems : list FoodItem) (l : LabelAnnotation)
  : list FoodItem :=
  if JS.gt (score l) 0.7 && isFoodRelated (description l)
  then foodItems ++ [labelItem l]
  else foodItems.

(** The body of the second [forEach] of [extractFoodItems]. *)
Definition pushObject (foodItems : list FoodItem) (obj : ObjectAnnotation)
  : list FoodItem :=
  if JS.gt (obj_score obj) 0.7 && isFoodRelated (obj_name obj)
  then foodItems ++ [objectItem obj]
  else foodItems.

(** [foodItems] as it stands when both loops are done. *)
Definition collectFoodItems (visionResults : VisionResults) : list FoodItem :=
  let foodItems := [] in
  let foodItems :=
    match labelAnnotations visionResults with
    | Some labels => foldl pushLabel foodItems labels
    | None => foodItems
    end in
  match localizedObjectAnnotations visionResults with
  | Some objects => foldl pushObject foodItems objects
  | None => foodItems
  end.

(** The comparator [(a, b) => b.confidence - a.confidence]. *)
Definition byConfidence (a b : FoodItem) : option Q :=
  match confidence b, confidence a with
  | Some cb, Some ca => Some (cb - ca)%Q
  | _, _ => None
  end.

Definition extractFoodItems (visionResults : VisionResults) : list FoodItem :=
  let foodItems := collectFoodItems visionResults in
  let uniqueFoods := removeDuplicates foodItems in
  JS.slice0 10 (JS.sort byConfidence uniqueFoods).

(** The keys of the object literal [combinedNutrition] (and of
    [totalNutrition]), in the order of the literal. *)
Definition nutrientKeys : list string :=
  [ "calories"; "protein"; "carbs"; "fat"; "fiber"; "sugar"; "sodium";
    "potassium"; "cholesterol"; "saturatedFat"; "transFat"; "vitaminA";
    "vitaminC"; "calcium"; "iron" ]%string.

(** The literal itself: every key at [0]. *)
Definition zeroNutrition : Nutrition :=
  list_to_map ((fun key => (key, 0%Q)) <$> nutrientKeys).

(** [nutrients.CODE?.quantity || 0]. *)
Definition quantityOr0 (nutrients : gmap string EdamamNutrient)
  (code : string) : Q :=
  JS.or_default (nutrients !! code ≫= quantity) 0.

Definition parseEdamamResponse (nutrients : gmap string EdamamNutrient)
  : Nutrition :=
  list_to_map
    [ ("calories", quantityOr0 nutrients "ENERC_KCAL");
      ("protein", quantityOr0 nutrients "PROCNT");
      ("carbs", quantityOr0 nutrients "CHOCDF");
      ("fat", quantityOr0 nutrients "FAT");
      ("fiber", quantityOr0 nutrients "FIBTG");
      ("sugar", quantityOr0 nutrients "SUGAR");
      ("sodium", quantityOr0 nutrients "NA");
      ("potassium", quantityOr0 nutrients "K");
      ("cholesterol", quantityOr0 nutrients "CHOLE");
      ("saturatedFat", quantityOr0 nutrients "FASAT");
      ("transFat", quantityOr0 nutrients "FATRN");
      ("vitaminA", quantityOr0 nutrients "VITA_RAE");
      ("vitaminC", quantityOr0 nutrients "VITC");
      ("calcium", quantityOr0 nutrients "CA");
      ("iron", quantityOr0 nutrients "FE") ]%string.

(** An entry of the local table: the eight keys its literals carry. *)
Definition entry (calories protein carbs fat fiber sugar sodium potassium : Q)
  : Nutrition :=
  list_to_map
    [ ("calories", calories); ("protein", protein); ("carbs", carbs);
      ("fat", fat); ("fiber", fiber); ("sugar", sugar);
      ("sodium", sodium); ("potassium", potassium) ]%string.

(** [Object.entries(nutritionDB)], in insertion order. *)
Definition nutritionDB : list (string * Nutrition) :=
  [ ("rice", entry 130 2.7 28 0.3 0.4 0.1 1 35);
    ("chicken", entry 165 31 0 3.6 0 0 74 256);
    ("fish", entry 206 22 0 12 0 0 61 384);
    ("vegetables", entry 25 2 5 0.2 2 2 20 200);
    ("bread", entry 79 3.1 14 1.1 1.2 1.2 140 35);
    ("pasta", entry 131 5 25 1.1 1.8 0.8 6 44);
    ("potato", entry 77 2 17 0.1 2.2 0.8 6 421);
    ("tomato", entry 18 0.9 3.9 0.2 1.2 2.6 5 237);
    ("onion", entry 40 1.1 9.3 0.1 1.7 4.7 4 146);
    ("garlic", entry 4 0.2 1 0 0.1 0.1 1 12);
    ("oil", entry 120 0 0 14 0 0 0 0);
    ("salt", entry 0 0 0 0 0 0 581 0);
    ("sugar", entry 16 0 4 0 0 4 0 0);
    ("milk", entry 42 3.4 5 1 0 5 44 150);
    ("cheese", entry 113 7 0.4 9 0 0.1 174 28);
    ("egg", entry 74 6.3 0.4 5 0 0.4 70 67);
    ("meat", entry 250 26 0 15 0 0 72 318);
    ("lentils", entry 116 9 20 0.4 7.9 1.8 2 369) ]%string.

(** The vector returned for a food no table key matches. *)
Definition defaultNutrition : Nutrition := entry 50 2 8 1 1 1 10 50.

Fixpoint findBestMatch (lowerFoodName : string)
  (entries : list (string * Nutrition)) : option Nutrition :=
  match entries with
  | [] => None
  | (key, nutrition) :: rest =>
      if JS.includes lowerFoodName key || JS.includes key lowerFoodName
      then Some nutrition
      else findBestMatch lowerFoodName rest
  end.

Definition getLocalNutritionData (foodName : string) : Nutrition :=
  let lowerFoodName := JS.toLowerCase foodName in
  match findBestMatch lowerFoodName nutritionDB with
  | Some nutrition => nutrition
  | None => defaultNutrition
  end.

(** A non-empty string is truthy. *)
Definition hasApiKey (env : Env) : bool :=
  match nutritionApiKey env with
  | Some EmptyString | None => false
  | Some _ => true
  end.

Definition getFoodNutrition (env : Env) (foodName : string) : Nutrition :=
  if hasApiKey env then
    match axiosGet env foodName with
    | axiosResponds (Some {| totalNutrients := Some nutrients |}) =>
        parseEdamamResponse nutrients
    | axiosResponds _ => getLocalNutritionData foodName
    | axiosThrows => getLocalNutritionData foodName
    end
  else getLocalNutritionData foodName.

(** The inner loop of [getNutritionalData]: over the keys of the
    accumulator, [if (nutrition[key]) acc[key] += nutrition[key] * weight]. *)
Definition addWeighted (nutrition : Nutrition) (weight : Q)
  (combinedNutrition : Nutrition) : Nutrition :=
  map_imap (fun key acc =>
    Some match nutrition !! key with
         | Some v => if JS.truthy v then (acc + v * weight)%Q else acc
         | None => acc
         end) combinedNutrition.

(** The callback of [nutritionResults.forEach((result, index) => ...)]. *)
Definition combineResult (recognizedFoods : list FoodItem)
  (combinedNutrition : Nutrition) (indexed : nat * SettledResult)
  : Nutrition :=
  let '(index, result) := indexed in
  match result, recognizedFoods !! index with
  | fulfilled nutrition, Some food =>
      let weight := JS.or_default (confidence food) 1 in
      addWeighted nutrition weight combinedNutrition
  | _, _ => combinedNutrition
  end.

(** [getNutritionalData].  Every promise of [getFoodNutrition] fulfils (its
    body catches what the lookup throws), and nothing in the [try] block
    throws on an array of food items, so the [catch] arm is not taken. *)
Definition getNutritionalData (env : Env) (recognizedFoods : list FoodItem)
  : Nutrition :=
  let nutritionResults :=
    (fun food => fulfilled (getFoodNutrition env (name food)))
      <$> recognizedFoods in
  foldl (combineResult recognizedFoods) zeroNutrition
    (imap pair nutritionResults).

(** The inner loop of [getFallbackNutrition]:
    [acc[key] += (nutrition[key] || 0) * weight]. *)
Definition addWeightedOr0 (nutrition : Nutrition) (weight : Q)
  (totalNutrition : Nutrition) : Nutrition :=
  map_imap (fun key acc =>
    Some (acc + JS.or_default (nutrition !! key) 0 * weight)%Q)
    totalNutrition.

Definition getFallbackNutrition (recognizedFoods : list FoodItem)
  : Nutrition :=
  foldl (fun totalNutrition food =>
           let nutrition := getLocalNutritionData (name food) in
           let weight := JS.or_default (confidence food) 1 in
           addWeightedOr0 nutrition weight totalNutrition)
    zeroNutrition recognizedFoods.

(** [conditions.some(c => c.condition === code)]. *)
Definition hasCondition (conditions : list HealthCondition) (code : string)
  : bool :=
  existsb (fun c => String.eqb (condition c) code) conditions.

(** [if (nutrition.key > limit) { list.push(make(nutrition.key)) }]; a
    missing key compares as [false]. *)
Definition pushIfAbove {A} (x : option Q) (limit : Q) (make : Q -> A)
  (l : list A) : list A :=
  match x with
  | Some v => if JS.gt v limit then l ++ [make v] else l
  | None => l
  end.

Definition carbsFinding (carbs : Q) : RiskFinding :=
  {| type := high_carbs;
     severity := warning;
     message := "High carbohydrate content (" +:+ JS.toFixed carbs 1 +:+
       "g). Consider smaller portion for diabetes management.";
     value := carbs;
     threshold := 60 |}.

Definition sugarFinding (sugar : Q) : RiskFinding :=
  {| type := high_sugar;
     severity := danger;
     message := "High sugar content (" +:+ JS.toFixed sugar 1 +:+
       "g). This may spike your blood sugar levels.";
     value := sugar;
     threshold := 15 |}.

Definition sodiumFinding (sodium : Q) : RiskFinding :=
  {| type := high_sodium;
     severity := danger;
     message := "High sodium content (" +:+ JS.toFixed sodium 1 +:+
       "mg). This may increase your blood pressure.";
     value := sodium;
     threshold := 500 |}.

Definition potassiumFinding (potassium : Q) : RiskFinding :=
  {| type := high_potassium;
     severity := danger;
     message := "High potassium content (" +:+ JS.toFixed potassium 1 +:+
       "mg). Limit intake for kidney health.";
     value := potassium;
     threshold := 400 |}.

Definition fatFinding (fat : Q) : RiskFinding :=
  {| type := high_fat;
     severity := warning;
     message := "High fat content (" +:+ JS.toFixed fat 1 +:+
       "g). Consider leaner alternatives.";
     value := fat;
     threshold := 20 |}.

Definition caloriesWarning (calories : Q) : Warning :=
  {| w_type := high_calories;
     w_message := "High calorie meal (" +:+ JS.toFixed calories 0 +:+
       " calories). Consider portion control." |}.

Definition analyzeHealthRisks (nutrition : Nutrition)
  (userProfile : option UserProfile) : HealthAnalysis :=
  let risks := [] in
  let warnings := [] in
  match userProfile with
  | None => {| risks := risks; warnings := warnings |}
  | Some userProfile =>
      let conditions := default [] (healthConditions userProfile) in
      (* Check for diabetes *)
      let risks :=
        if hasCondition conditions "diabetes" then
          let risks :=
            pushIfAbove (nutrition !! "carbs") 60 carbsFinding risks in
          pushIfAbove (nutrition !! "sugar") 15 sugarFinding risks
        else risks in
      (* Check for high blood pressure *)
      let risks :=
        if hasCondition conditions "bp" then
          pushIfAbove (nutrition !! "sodium") 500 sodiumFinding risks
        else risks in
      (* Check for kidney disease *)
      let risks :=
        if hasCondition conditions "kidney" then
          pushIfAbove (nutrition !! "potassium") 400 potassiumFinding risks
        else risks in
      (* Check for high cholesterol *)
      let risks :=
        if hasCondition conditions "cholesterol" then
          pushIfAbove (nutrition !! "fat") 20 fatFinding risks
        else risks in
      (* General health checks *)
      let warnings :=
        pushIfAbove (nutrition !! "calories") 600 caloriesWarning warnings in
      {| risks := risks; warnings := warnings |}
  end.

(** The body of the [forEach] of [generateRecommendations]: the [switch]
    on the type of the finding; a type without a [case] pushes nothing. *)
Definition pushRecommendation (recommendations : list Recommendation)
  (risk : RiskFinding) : list Recommendation :=
  match type risk with
  | high_carbs =>
      recommendations ++
      [ {| rec_type := "dietary";
           rec_message :=
             "Try replacing some carbs with vegetables or lean protein.";
           priority := Priority.medium |} ]
  | high_sugar =>
      recommendations ++
      [ {| rec_type := "dietary";
           rec_message :=
             "Consider sugar-free alternatives or reduce portion size.";
           priority := Priority.high |} ]
  | high_sodium =>
      recommendations ++
      [ {| rec_type := "dietary";
           rec_message :=
             "Use herbs and spices instead of salt for flavoring.";
           priority := Priority.high |} ]
  | high_potassium =>
      recommendations ++
      [ {| rec_type := "dietary";
           rec_message :=
             "Choose lower potassium vegetables like green beans or cabbage.";
           priority := Priority.high |} ]
  | high_fat =>
      recommendations ++
      [ {| rec_type := "dietary";
           rec_message := "Opt for grilled or baked instead of fried foods.";
           priority := Priority.medium |} ]
  | high_calories => recommendations
  end.

Definition generateRecommendations (healthAnalysis : HealthAnalysis)
  (userProfile : option UserProfile) : list Recommendation :=
  foldl pushRecommendation [] (risks healthAnalysis).

(** [performVisionAnalysis]: the response of the client, or the error it
    rethrows. *)
Definition performVisionAnalysis (annotateImage : VisionOutcome)
  : VisionResults + string :=
  match annotateImage with
  | visionResolves result => inl result
  | visionThrows error_message => inr ("Vision API failed: " +:+ error_message)
  end.

(** [analyzeMealImage]: the five steps in a row, or the error rethrown.
    [startTime] and [endTime] are the two readings of [Date.now()]. *)
Definition analyzeMealImage (env : Env) (annotateImage : VisionOutcome)
  (userProfile : option UserProfile) (startTime endTime : Z)
  : AnalysisResult.t + string :=
  match performVisionAnalysis annotateImage with
  | inl visionResults =>
      let recognizedFoods := extractFoodItems visionResults in
      let nutritionData := getNutritionalData env recognizedFoods in
      let healthAnalysis := analyzeHealthRisks nutritionData userProfile in
      let recommendations :=
        generateRecommendations healthAnalysis userProfile in
      let processingTime := (endTime - startTime)%Z in
      inl {| AnalysisResult.recognizedFoods := recognizedFoods;
             AnalysisResult.nutrition := nutritionData;
             AnalysisResult.healthRisks := risks healthAnalysis;
             AnalysisResult.warnings := warnings healthAnalysis;
             AnalysisResult.recommendations := recommendations;
             AnalysisResult.processingTime := processingTime;
             AnalysisResult.analysisStatus := completed |}
  | inr error_message => inr ("Image analysis failed: " +:+ error_message)
  end.

End GoogleVisionService.

(** ** The meal document *)

Module Meal.

Inductive Category := healthy | moderate | unhealthy | unknown.

(** [aiAnalysis], as far as the hook reads it. *)
Record AiAnalysis := {
  healthRisks : option (list RiskFinding)
}.

(** The fields of a meal document the hook reads or writes; [category]
    has no default in the schema. *)
Record Meal := {
  aiAnalysis : option AiAnalysis;
  category : option Category
}.

Definition setCategory (this : Meal) (c : Category) : Meal :=
  {| aiAnalysis := aiAnalysis this; category := Some c |}.

(** [mealSchema.pre('save', ...)]. *)
Definition preSave (this : Meal) : Meal :=
  match aiAnalysis this ≫= healthRisks with
  | Some healthRisks =>
      let dangerRisks :=
        filter (fun risk => severity risk = danger) healthRisks in
      let warningRisks :=
        filter (fun risk => severity risk = warning) healthRisks in
      if (0 <? length dangerRisks)%nat then setCategory this unhealthy
      else if (0 <? length warningRisks)%nat then setCategory this moderate
      else if (length healthRisks =? 0)%nat then setCategory this healthy
      else this
  | None => this
  end.

(** The virtual [riskLevel]. *)
Inductive RiskLevel := level_unknown | level_high | level_medium | level_low.

Definition riskLevel (this : Meal) : RiskLevel :=
  match aiAnalysis this ≫= healthRisks with
  | None => level_unknown
  | Some healthRisks =>
      let dangerRisks :=
        filter (fun risk => severity risk = danger) healthRisks in
      let warningRisks :=
        filter (fun risk => severity risk = warning) healthRisks in
      if (0 <? length dangerRisks)%nat then level_high
      else if (0 <? length warningRisks)%nat then level_medium
      else level_low
  end.

End Meal.

(** ** The analysis route *)

Module AnalysisRoute.

(** [meal.aiAnalysis = { ...meal.aiAnalysis, ...analysisResults, ... };
    await meal.save()], on the fields of a meal document that [Meal.Meal]
    keeps: the findings are replaced and the save hook runs. *)
Definition storeAnalysis (meal : Meal.Meal)
  (analysisResults : AnalysisResult.t) : Meal.Meal :=
  Meal.preSave
    {| Meal.aiAnalysis :=
         Some {| Meal.healthRisks :=
                   Some (AnalysisResult.healthRisks analysisResults) |};
       Meal.category := Meal.category meal |}.

(** [analyzeMealAsync], as the meal document sees it: [found] is what
    [Meal.findById] returns, [outcome] what [analyzeMealImage] did.  A meal
    that is gone stays gone; after an error the meal is saved with its
    findings untouched. *)
Definition analyzeMealAsync (found : option Meal.Meal)
  (outcome : AnalysisResult.t + string) : option Meal.Meal :=
  match outcome, found with
  | inl analysisResults, Some meal => Some (storeAnalysis meal analysisResults)
  | inr _, Some meal => Some (Meal.preSave meal)
  | _, None => None
  end.

End AnalysisRoute.

Import GoogleVisionService.

(** ** Vocabulary of the statements, and concrete inputs *)

(** [k] occurs in [s]: the meaning of [includes]. *)
Definition Substring (k s : string) : Prop :=
  exists pre post, s = pre +:+ k +:+ post.

(** The filter of the first loop, as a predicate on a label annotation. *)
Definition labelPasses (l : LabelAnnotation) : Prop :=
  (0.7 < score l)%Q /\
  exists keyword, keyword ∈ foodKeywords /\
    Substring keyword (JS.toLowerCase (description l)).

(** The filter of the second loop, as a predicate on an object annotation. *)
Definition objectPasses (obj : ObjectAnnotation) : Prop :=
  (0.7 < obj_score obj)%Q /\
  exists keyword, keyword ∈ foodKeywords /\
    Substring keyword (JS.toLowerCase (obj_name obj)).

(** Descending by confidence, on items that carry one. *)
Definition byConfidenceDesc (a b : FoodItem) : Prop :=
  exists ca cb,
    confidence a = Some ca /\ confidence b = Some cb /\ (cb <= ca)%Q.

(** A label detection whose confidence is exactly the threshold. *)
Definition riceAtThreshold : LabelAnnotation :=
  {| description := "rice"; score := 0.7 |}.

(** A vision response with one label annotation and nothing else. *)
Definition onlyLabel (l : LabelAnnotation) : VisionResults :=
  {| labelAnnotations := Some [l]; localizedObjectAnnotations := None |}.

(** A vision response in which "fried rice" is seen three times, a label
    misses the threshold and a label is no food. *)
Definition busyPlate : VisionResults :=
  {| labelAnnotations :=
       Some [ {| description := "Fried Rice"; score := 0.8 |};
              {| description := "Table"; score := 0.99 |};
              {| description := "Chicken"; score := 0.95 |};
              {| description := "Tomato"; score := 0.7 |};
              {| description := "fried rice"; score := 0.97 |} ];
     localizedObjectAnnotations :=
       Some [ {| obj_name := "Fried rice"; obj_score := 0.9;
                 boundingPoly := None |};
              {| obj_name := "Bowl"; obj_score := 0.96;
                 boundingPoly := None |} ] |}.

(** Every amount of a vector is at least [0]. *)
Definition nonNegative (v : Nutrition) : Prop :=
  forall key q, v !! key = Some q -> (0 <= q)%Q.


(** The step [getNutritionalData] takes for one food. *)
Definition combineFood (env : Env) (acc : Nutrition) (food : FoodItem)
  : Nutrition :=
  addWeighted (getFoodNutrition env (name food))
    (JS.or_default (confidence food) 1) acc.

(** The step [getFallbackNutrition] takes for one food. *)
Definition combineLocal (acc : Nutrition) (food : FoodItem) : Nutrition :=
  addWeightedOr0 (getLocalNutritionData (name food))
    (JS.or_default (confidence food) 1) acc.

(** The accumulator keeps exactly the keys of the literal, each at a
    non-negative amount. *)
Definition wellFormed (acc : Nutrition) : Prop :=
  (forall key, key ∈ nutrientKeys <-> is_Some (acc !! key)) /\
  nonNegative acc.

(** A service without an API key: every lookup goes to the local table. *)
Definition offlineEnv : Env :=
  {| nutritionApiKey := None; axiosGet := fun _ => axiosThrows |}.

(** A label-sourced food item. *)
Definition foodNamed (foodName : string) (c : Q) : FoodItem :=
  {| name := foodName; confidence := Some c; source := label;
     boundingBox := None |}.

(** The foods of the end-to-end scenario. *)
Definition riceAndChicken : list FoodItem :=
  [ foodNamed "rice" 0.9; foodNamed "chicken" 0.85 ].

(** The user holds the condition [code]. *)
Definition holds (conditions : list HealthCondition) (code : string) : Prop :=
  exists c, c ∈ conditions /\ condition c = code.

(** One row of the rule table: nothing unless the condition is held. *)
Definition rule {A} (on : bool) (x : option Q) (limit : Q) (make : Q -> A)
  : list A :=
  if on then pushIfAbove x limit make [] else [].

(** A meal-level vector: the given amounts, every other key at [0]. *)
Definition mealOf (entries : list (string * Q)) : Nutrition :=
  list_to_map entries ∪ zeroNutrition.

(** A user holding the given condition codes. *)
Definition user (codes : list string) : UserProfile :=
  {| healthConditions :=
       Some ((fun code => {| condition := code; details := "" |}) <$> codes) |}.

(** A meal of 700 calories. *)
Definition heavyMeal : Nutrition := mealOf [("calories", 700%Q)]%string.

(** The meal of the rule-independence example. *)
Definition starchySaltyMeal : Nutrition :=
  mealOf [("carbs", 70%Q); ("sugar", 20%Q); ("sodium", 600%Q)]%string.

(** A meal saved before any analysis exists. *)
Definition unanalysedMeal : Meal.Meal :=
  {| Meal.aiAnalysis := None; Meal.category := None |}.


(** A meal whose analysis produced the given findings. *)
Definition analysedMeal (findings : list RiskFinding) : Meal.Meal :=
  {| Meal.aiAnalysis := Some {| Meal.healthRisks := Some findings |};
     Meal.category := None |}.

(** The item carries a confidence equal to [c]. *)
Definition hasConfidence (c : Q) (item : FoodItem) : Prop :=
  match confidence item with
  | Some c' => (c' == c)%Q
  | None => False
  end.

#[global] Instance hasConfidence_dec (c : Q) (item : FoodItem) :
  Decision (hasConfidence c item).
Proof. unfold hasConfidence. destruct (confidence item); apply _. Defined.

(** A food name and a table key match when one contains the other. *)
Definition related (lowerFoodName key : string) : Prop :=
  Substring key lowerFoodName \/ Substring lowerFoodName key.

(** The eight keys the literals of the local table carry. *)
Definition localKeys : list string :=
  [ "calories"; "protein"; "carbs"; "fat"; "fiber"; "sugar"; "sodium";
    "potassium" ]%string.

(** The seven keys of the meal-level vector the local table never carries. *)
Definition apiOnlyKeys : list string :=
  [ "cholesterol"; "saturatedFat"; "transFat"; "vitaminA"; "vitaminC";
    "calcium"; "iron" ]%string.

(** Every quantity the nutrition API reports is at least [0]. *)
Definition apiNonNegative (env : Env) : Prop :=
  forall foodName data nutrients code nutrient q,
    axiosGet env foodName = axiosResponds (Some data) ->
    totalNutrients data = Some nutrients ->
    nutrients !! code = Some nutrient ->
    quantity nutrient = Some q -> (0 <= q)%Q.

(** What one food adds to the meal-level value of [key] in
    [getNutritionalData]: its resolved amount times its weight. *)
Definition contribution (env : Env) (key : string) (food : FoodItem) : Q :=
  match getFoodNutrition env (name food) !! key with
  | Some v =>
      if JS.truthy v then (v * JS.or_default (confidence food) 1)%Q else 0%Q
  | None => 0%Q
  end.

(** What one food adds to the value of [key] in [getFallbackNutrition]. *)
Definition localContribution (key : string) (food : FoodItem) : Q :=
  (JS.or_default (getLocalNutritionData (name food) !! key) 0 *
   JS.or_default (confidence food) 1)%Q.

(** The sum of a list of numbers. *)
Definition sumQ (l : list Q) : Q := foldr Qplus 0%Q l.

(** The finding types, in the order of the rule table. *)
Definition tableOrder : list RiskType :=
  [ high_carbs; high_sugar; high_sodium; high_potassium; high_fat ].

(** A recommendation fits a finding: it is dietary, of high priority for a
    danger and of medium priority for a warning. *)
Definition fits (risk : RiskFinding) (r : Recommendation) : Prop :=
  rec_type r = "dietary"%string /\
  (severity risk = danger -> priority r = Priority.high) /\
  (severity risk = warning -> priority r = Priority.medium).

(** Every amount of [small] is at most the amount of [large] at its key. *)
Definition keywiseLe (small large : Nutrition) : Prop :=
  forall key v, small !! key = Some v ->
    exists v', large !! key = Some v' /\ (v <= v')%Q.

(** A vision response of eleven distinct foods. *)
Definition banquet : VisionResults :=
  {| labelAnnotations :=
       Some [ {| description := "Rice"; score := 0.91 |};
              {| description := "Chicken"; score := 0.92 |};
              {| description := "Fish"; score := 0.93 |};
              {| description := "Bread"; score := 0.94 |};
              {| description := "Pasta"; score := 0.95 |};
              {| description := "Potato"; score := 0.96 |};
              {| description := "Tomato"; score := 0.97 |};
              {| description := "Onion"; score := 0.98 |};
              {| description := "Garlic"; score := 0.99 |};
              {| description := "Milk"; score := 0.9 |};
              {| description := "Cheese"; score := 0.8 |} ];
     localizedObjectAnnotations := None |}.

(** A vision response in which nothing is food. *)
Definition emptyTable : VisionResults :=
  {| labelAnnotations :=
       Some [ {| description := "Table"; score := 0.99 |};
              {| description := "Rice"; score := 0.5 |} ];
     localizedObjectAnnotations := Some [] |}.

(** A service with an API key, whose nutrition API knows rice alone and
    fails for every other food. *)
Definition riceResponse : gmap string EdamamNutrient :=
  list_to_map
    [ ("ENERC_KCAL", {| quantity := Some 130%Q |});
      ("PROCNT", {| quantity := Some 2.7%Q |});
      ("CHOCDF", {| quantity := Some 28%Q |});
      ("CHOLE", {| quantity := Some 0%Q |});
      ("FE", {| quantity := None |}) ]%string.

Definition onlineEnv : Env :=
  {| nutritionApiKey := Some "secret"%string;
     axiosGet := fun foodName =>
       if String.eqb foodName "rice"
       then axiosResponds (Some {| totalNutrients := Some riceResponse |})
       else axiosThrows |}.

(** A finding as the evaluator makes them: its severity goes with its
    type, and its type is one the recommendation table knows. *)
Definition tableFinding (f : RiskFinding) : Prop :=
  ((type f = high_carbs \/ type f = high_fat) /\ severity f = warning) \/
  ((type f = high_sugar \/ type f = high_sodium \/ type f = high_potassium) /\
   severity f = danger).

(** Some finding of the analysis has type [t]. *)
Definition found (analysis : HealthAnalysis) (t : RiskType) : Prop :=
  exists f, f ∈ risks analysis /\ type f = t.

(** The nutrient at [key] is present and strictly above [limit]. *)
Definition exceeds (nutrition : Nutrition) (key : string) (limit : Q) : Prop :=
  exists v, nutrition !! key = Some v /\ (limit < v)%Q.

(** The meal of the rule-independence example, with every amount doubled. *)
Definition doubledMeal : Nutrition :=
  mealOf [("carbs", 140%Q); ("sugar", 40%Q); ("sodium", 1200%Q)]%string.

(** The result of an analysis that recognised nothing, between the
    clock readings [startTime] and [endTime]. *)
Definition emptyResult (startTime endTime : Z) : AnalysisResult.t :=
  {| AnalysisResult.recognizedFoods := [];
     AnalysisResult.nutrition := zeroNutrition;
     AnalysisResult.healthRisks := [];
     AnalysisResult.warnings := [];
     AnalysisResult.recommendations := [];
     AnalysisResult.processingTime := (endTime - startTime)%Z;
     AnalysisResult.analysisStatus := completed |}.

(** ** The definitions, run on small inputs *)

Example toFixed_one_decimal : JS.toFixed 600 1 = "600.0"%string.
Proof. by vm_compute. Qed.

Example toFixed_rounds_down : JS.toFixed 500.01 1 = "500.0"%string.
Proof. by vm_compute. Qed.

Example toFixed_no_decimal : JS.toFixed 712.5 0 = "713"%string.
Proof. by vm_compute. Qed.

Example toFixed_below_one : JS.toFixed 0.04 1 = "0.0"%string.
Proof. by vm_compute. Qed.

Example toLowerCase_label : JS.toLowerCase "Fried RICE" = "fried rice"%string.
Proof. by vm_compute. Qed.

Example includes_inside : JS.includes "fried rice" "rice" = true.
Proof. by vm_compute. Qed.

Example includes_missing : JS.includes "table" "rice" = false.
Proof. by vm_compute. Qed.

Example extractFoodItems_busyPlate :
  (fun item => (name item, confidence item, source item))
    <$> extractFoodItems busyPlate
  = [ ("bowl", Some 0.96%Q, object); ("chicken", Some 0.95%Q, label);
      ("fried rice", Some 0.8%Q, label) ]%string.
Proof. by vm_compute. Qed.

Example getLocalNutritionData_substring :
  getLocalNutritionData "Fried Rice" !! "calories" = Some 130%Q.
Proof. by vm_compute. Qed.

Example getLocalNutritionData_unknown :
  getLocalNutritionData "quinoa" = defaultNutrition.
Proof. by vm_compute. Qed.

Example getNutritionalData_riceAndChicken :
  getNutritionalData offlineEnv riceAndChicken !! "calories"
  = Some (0 + 130 * 0.9 + 165 * 0.85)%Q.
Proof. reflexivity. Qed.

Example analyzeHealthRisks_messages :
  message <$> risks (analyzeHealthRisks starchySaltyMeal
                       (Some (user ["diabetes"; "bp"])))
  = [ "High carbohydrate content (70.0g). Consider smaller portion for diabetes management.";
      "High sugar content (20.0g). This may spike your blood sugar levels.";
      "High sodium content (600.0mg). This may increase your blood pressure."
    ]%string.
Proof. by vm_compute. Qed.

Example extractFoodItems_banquet :
  name <$> extractFoodItems banquet
  = [ "garlic"; "onion"; "tomato"; "potato"; "pasta"; "bread"; "fish";
      "chicken"; "rice"; "milk" ]%string.
Proof. by vm_compute. Qed.

Example generateRecommendations_priorities :
  priority <$>
    generateRecommendations
      (analyzeHealthRisks starchySaltyMeal (Some (user ["diabetes"; "bp"])))
      (Some (user ["diabetes"; "bp"]))
  = [ Priority.medium; Priority.high; Priority.high ].
Proof. by vm_compute. Qed.

Example riskLevel_levels :
  Meal.riskLevel unanalysedMeal = Meal.level_unknown /\
  Meal.riskLevel (analysedMeal []) = Meal.level_low /\
  Meal.riskLevel (analysedMeal [carbsFinding 70]) = Meal.level_medium /\
  Meal.riskLevel (analysedMeal [carbsFinding 70; sugarFinding 20])
    = Meal.level_high.
Proof. by vm_compute. Qed.

Example analyzeMealImage_vision_error :
  analyzeMealImage offlineEnv (visionThrows "quota exceeded") None 0 1
  = inr "Image analysis failed: Vision API failed: quota exceeded"%string.
Proof. by vm_compute. Qed.

Example getFoodNutrition_online_rice :
  getFoodNutrition onlineEnv "rice" !! "protein" = Some 2.7%Q /\
  getFoodNutrition onlineEnv "rice" !! "iron" = Some 0%Q /\
  getFoodNutrition onlineEnv "chicken" !! "protein" = Some 31%Q /\
  getFoodNutrition onlineEnv "chicken" !! "iron" = None.
Proof. by vm_compute. Qed.

(** ** Facts about the primitives *)

Section js_facts.

Lemma gt_spec (x y : Q) : JS.gt x y = true <-> (y < x)%Q.
Proof.
  unfold JS.gt. rewrite negb_true_iff, <- not_true_iff_false, Qle_bool_iff.
  split; [apply Qnot_le_lt | apply Qlt_not_le].
Qed.

Lemma gt_false (x y : Q) : JS.gt x y = false <-> (x <= y)%Q.
Proof.
  unfold JS.gt. rewrite negb_false_iff. apply Qle_bool_iff.
Qed.



Lemma or_default_nonneg (x : option Q) (d : Q) :
  (0 <= d)%Q -> (forall c, x = Some c -> (0 <= c)%Q) ->
  (0 <= JS.or_default x d)%Q.
Proof.
  intros Hd Hx. destruct x as [c|]; simpl; [|done].
  destruct (JS.truthy c); [by apply Hx | done].
Qed.

Lemma prefix_spec (k s : string) :
  String.prefix k s = true <-> exists post, s = k +:+ post.
Proof.
  revert s. induction k as [|a k IH]; intros s; simpl.
  - split; [intros _; by exists s | by destruct s].
  - destruct s as [|b s]; simpl; [split; [done | by intros [? ?]]|].
    destruct (Ascii.ascii_dec a b) as [->|Hab].
    + rewrite IH. split; intros [post Hp]; exists post.
      * by rewrite Hp.
      * by injection Hp.
    + split; [done | intros [post Hp]; by injection Hp].
Qed.

Lemma includes_cons (a : ascii) (s k : string) :
  JS.includes (String a s) k = String.prefix k (String a s) || JS.includes s k.
Proof. reflexivity. Qed.

Lemma includes_spec (s k : string) :
  JS.includes s k = true <-> Substring k s.
Proof.
  unfold Substring. induction s as [|a s IH].
  - change (JS.includes "" k) with (String.prefix k "" || false).
    rewrite orb_false_r, prefix_spec. split.
    + intros [post Hp]. by exists EmptyString, post.
    + intros ([|? ?] & post & Hp); [by exists post | done].
  - rewrite includes_cons, orb_true_iff, prefix_spec, IH. split.
    + intros [[post Hp] | (pre & post & Hp)].
      * by exists EmptyString, post.
      * exists (String a pre), post. simpl. by rewrite Hp.
    + intros ([|b pre] & post & Hp).
      * left. by exists post.
      * right. exists pre, post. by injection Hp.
Qed.

End js_facts.

(** ** Facts about the food extractor *)

Section sort_facts.

Context {A : Type} (compareFn : A -> A -> option Q).
Context (P : A -> Prop) (R : A -> A -> Prop).
Hypothesis R_trans : forall a b c, R a b -> R b c -> R a c.
Hypothesis keeps_R :
  forall a b, P a -> P b -> JS.keepsOrder compareFn a b = true -> R a b.
Hypothesis swaps_R :
  forall a b, P a -> P b -> JS.keepsOrder compareFn a b = false -> R b a.

Lemma insert_Permutation (a : A) (l : list A) :
  JS.insert compareFn a l ≡ₚ a :: l.
Proof.
  induction l as [|b l IH]; simpl; [done|].
  destruct (JS.keepsOrder compareFn a b); [done|].
  rewrite IH. apply Permutation_swap.
Qed.

Lemma sort_Permutation (l : list A) : JS.sort compareFn l ≡ₚ l.
Proof.
  induction l as [|a l IH]; simpl; [done|].
  by rewrite insert_Permutation, IH.
Qed.

Lemma insert_StronglySorted (a : A) (l : list A) :
  P a -> Forall P l -> StronglySorted R l ->
  StronglySorted R (JS.insert compareFn a l).
Proof using R_trans keeps_R swaps_R.
  intros Ha HP Hs. induction Hs as [|b l Hs IH Hb]; simpl.
  - by repeat constructor.
  - apply Forall_cons in HP as [HPb HPl].
    destruct (JS.keepsOrder compareFn a b) eqn:Hk.
    + constructor; [by constructor|].
      constructor; [by apply keeps_R|].
      eapply Forall_impl; [exact Hb|]. intros c Hc.
      eapply R_trans; [|exact Hc]. by apply keeps_R.
    + constructor; [by apply IH|].
      rewrite insert_Permutation. constructor; [by apply swaps_R | done].
Qed.

Lemma sort_StronglySorted (l : list A) :
  Forall P l -> StronglySorted R (JS.sort compareFn l).
Proof using R_trans keeps_R swaps_R.
  induction l as [|a l IH]; simpl; intros HP; [constructor|].
  apply Forall_cons in HP as [Ha HP].
  apply insert_StronglySorted; [done | | by apply IH].
  by rewrite sort_Permutation.
Qed.

Lemma StronglySorted_take (n : nat) (l : list A) :
  StronglySorted R l -> StronglySorted R (take n l).
Proof.
  intros Hs. revert n. induction Hs as [|a l Hs IH Ha]; intros [|n]; simpl;
    try constructor; [apply IH|].
  eapply Forall_forall. intros b Hb. rewrite Forall_forall in Ha.
  apply Ha. eapply elem_of_sublist; [exact Hb | apply sublist_take].
Qed.

End sort_facts.

Section extractor_facts.

Implicit Types (item : FoodItem) (seen : gset string).

Lemma isFoodRelated_spec (l : string) :
  isFoodRelated l = true <->
  exists keyword,
    keyword ∈ foodKeywords /\ Substring keyword (JS.toLowerCase l).
Proof.
  unfold isFoodRelated. rewrite existsb_exists.
  setoid_rewrite <- list_elem_of_In. by setoid_rewrite includes_spec.
Qed.

Lemma label_filter_spec (l : LabelAnnotation) :
  JS.gt (score l) 0.7 && isFoodRelated (description l) = true <-> labelPasses l.
Proof.
  unfold labelPasses. by rewrite andb_true_iff, gt_spec, isFoodRelated_spec.
Qed.

Lemma object_filter_spec (obj : ObjectAnnotation) :
  JS.gt (obj_score obj) 0.7 && isFoodRelated (obj_name obj) = true
  <-> objectPasses obj.
Proof.
  unfold objectPasses. by rewrite andb_true_iff, gt_spec, isFoodRelated_spec.
Qed.

Lemma foldl_pushLabel_app (acc : list FoodItem) (ls : list LabelAnnotation) :
  foldl pushLabel acc ls = acc ++ foldl pushLabel [] ls.
Proof.
  revert acc. induction ls as [|l ls IH]; intros acc; simpl.
  - by rewrite app_nil_r.
  - rewrite (IH (pushLabel acc l)), (IH (pushLabel [] l)).
    unfold pushLabel. destruct (_ && _); simpl; [|done].
    by rewrite <- app_assoc.
Qed.

Lemma foldl_pushObject_app (acc : list FoodItem) (os : list ObjectAnnotation) :
  foldl pushObject acc os = acc ++ foldl pushObject [] os.
Proof.
  revert acc. induction os as [|o os IH]; intros acc; simpl.
  - by rewrite app_nil_r.
  - rewrite (IH (pushObject acc o)), (IH (pushObject [] o)).
    unfold pushObject. destruct (_ && _); simpl; [|done].
    by rewrite <- app_assoc.
Qed.

Lemma elem_of_foldl_pushLabel item (ls : list LabelAnnotation) :
  item ∈ foldl pushLabel [] ls <->
  exists l, l ∈ ls /\ labelPasses l /\ item = labelItem l.
Proof.
  induction ls as [|l ls IH]; simpl.
  - split; [by intros ?%elem_of_nil | by intros (? & ?%elem_of_nil & _)].
  - rewrite foldl_pushLabel_app, elem_of_app, IH. unfold pushLabel at 1.
    destruct (_ && _) eqn:Hf.
    + apply label_filter_spec in Hf. simpl. rewrite list_elem_of_singleton.
    split.
      * intros [-> | (l' & ? & ? & ?)]; [exists l | exists l'];
          rewrite elem_of_cons; auto.
      * intros (l' & [-> | ?]%elem_of_cons & ? & ?); [by left|].
        right. by exists l'.
    + split.
      * intros [?%elem_of_nil | (l' & ? & ? & ?)]; [done|].
        exists l'. rewrite elem_of_cons. auto.
      * intros (l' & [-> | ?]%elem_of_cons & Hp & ?).
        -- apply label_filter_spec in Hp. congruence.
        -- right. by exists l'.
Qed.

Lemma elem_of_foldl_pushObject item (os : list ObjectAnnotation) :
  item ∈ foldl pushObject [] os <->
  exists obj, obj ∈ os /\ objectPasses obj /\ item = objectItem obj.
Proof.
  induction os as [|o os IH]; simpl.
  - split; [by intros ?%elem_of_nil | by intros (? & ?%elem_of_nil & _)].
  - rewrite foldl_pushObject_app, elem_of_app, IH. unfold pushObject at 1.
    destruct (_ && _) eqn:Hf.
    + apply object_filter_spec in Hf. simpl. rewrite list_elem_of_singleton.
    split.
      * intros [-> | (o' & ? & ? & ?)]; [exists o | exists o'];
          rewrite elem_of_cons; auto.
      * intros (o' & [-> | ?]%elem_of_cons & ? & ?); [by left|].
        right. by exists o'.
    + split.
      * intros [?%elem_of_nil | (o' & ? & ? & ?)]; [done|].
        exists o'. rewrite elem_of_cons. auto.
      * intros (o' & [-> | ?]%elem_of_cons & Hp & ?).
        -- apply object_filter_spec in Hp. congruence.
        -- right. by exists o'.
Qed.

(** The candidates: what the label loop pushed, then what the object loop
    pushed. *)
Lemma collectFoodItems_app (visionResults : VisionResults) :
  collectFoodItems visionResults =
  foldl pushLabel [] (default [] (labelAnnotations visionResults)) ++
  foldl pushObject [] (default [] (localizedObjectAnnotations visionResults)).
Proof.
  unfold collectFoodItems.
  destruct (labelAnnotations visionResults) as [ls|],
    (localizedObjectAnnotations visionResults) as [os|]; simpl.
  - apply foldl_pushObject_app.
  - by rewrite app_nil_r.
  - done.
  - done.
Qed.

Lemma elem_of_removeDuplicatesFrom seen (l : list FoodItem) item :
  item ∈ removeDuplicatesFrom seen l <->
  exists before after,
    l = before ++ item :: after /\
    (name item ∉ seen) /\ (name item ∉ name <$> before).
Proof.
  revert seen. induction l as [|x l IH]; intros seen; simpl.
  - split; [by intros ?%elem_of_nil|].
    intros ([|??] & ? & ? & _); discriminate.
  - destruct (decide (name x ∈ seen)) as [Hin|Hout].
    + rewrite IH. split.
      * intros (before & after & -> & Hs & Hb).
        exists (x :: before), after. split_and!; [done..|].
        rewrite fmap_cons, not_elem_of_cons. split; [congruence | done].
      * intros ([|y before] & after & Heq & Hs & Hb); simplify_eq/=; [done|].
        exists before, after. apply not_elem_of_cons in Hb as [_ Hb]. done.
    + rewrite elem_of_cons, IH. split.
      * intros [-> | (before & after & -> & Hs & Hb)].
        -- exists [], l. split_and!; [done..|]. apply not_elem_of_nil.
        -- apply not_elem_of_union in Hs as [Hx%not_elem_of_singleton Hs].
           exists (x :: before), after. split_and!; [done..|].
           rewrite fmap_cons, not_elem_of_cons. by split.
      * intros ([|y before] & after & Heq & Hs & Hb); simplify_eq/=;
          [by left|].
        right. exists before, after.
        apply not_elem_of_cons in Hb as [Hne Hb]. split_and!; [done | | done].
        apply not_elem_of_union. split; [by apply not_elem_of_singleton | done].
Qed.

Lemma removeDuplicatesFrom_NoDup seen (l : list FoodItem) :
  NoDup (name <$> removeDuplicatesFrom seen l).
Proof.
  revert seen. induction l as [|x l IH]; intros seen; simpl; [constructor|].
  destruct (decide (name x ∈ seen)); [apply IH|].
  rewrite fmap_cons. apply NoDup_cons. split; [|apply IH].
  intros (y & Hxy & Hy)%list_elem_of_fmap.
  apply elem_of_removeDuplicatesFrom in Hy as (_ & _ & _ & Hs & _).
  rewrite <- Hxy in Hs. apply Hs, elem_of_union_l. by apply elem_of_singleton.
Qed.

Lemma removeDuplicatesFrom_app seen (l1 l2 : list FoodItem) :
  removeDuplicatesFrom seen (l1 ++ l2) =
  removeDuplicatesFrom seen l1 ++
  removeDuplicatesFrom (list_to_set (name <$> l1) ∪ seen) l2.
Proof.
  revert seen. induction l1 as [|x l1 IH]; intros seen; simpl.
  - by rewrite (left_id_L ∅ (∪)).
  - destruct (decide (name x ∈ seen)) as [Hin|Hout]; rewrite IH; simpl.
    + do 2 f_equal. apply set_eq. intros k.
      rewrite !elem_of_union, elem_of_singleton. intuition (subst; auto).
    + do 3 f_equal. apply set_eq. intros k.
      rewrite !elem_of_union, elem_of_singleton. tauto.
Qed.

Lemma lowerChar_idemp (c : ascii) :
  JS.lowerChar (JS.lowerChar c) = JS.lowerChar c.
Proof. by destruct c as [[] [] [] [] [] [] [] []]. Qed.

Lemma toLowerCase_idemp (s : string) :
  JS.toLowerCase (JS.toLowerCase s) = JS.toLowerCase s.
Proof.
  induction s as [|c s IH]; simpl; [done|]. by rewrite lowerChar_idemp, IH.
Qed.

Lemma byConfidenceDesc_trans a b c :
  byConfidenceDesc a b -> byConfidenceDesc b c -> byConfidenceDesc a c.
Proof.
  intros (ca & cb & Ha & Hb & Hab) (cb' & cc & Hb' & Hc & Hbc).
  simplify_eq. exists ca, cc. split_and!; [done..|]. lra.
Qed.

Lemma byConfidence_keeps a b :
  is_Some (confidence a) -> is_Some (confidence b) ->
  JS.keepsOrder byConfidence a b = true -> byConfidenceDesc a b.
Proof.
  intros [ca Ha] [cb Hb]. unfold JS.keepsOrder, byConfidence.
  rewrite Ha, Hb, Qle_bool_iff. intros Hle.
  exists ca, cb. split_and!; [done..|]. lra.
Qed.

Lemma byConfidence_swaps a b :
  is_Some (confidence a) -> is_Some (confidence b) ->
  JS.keepsOrder byConfidence a b = false -> byConfidenceDesc b a.
Proof.
  intros [ca Ha] [cb Hb]. unfold JS.keepsOrder, byConfidence.
  rewrite Ha, Hb, <- not_true_iff_false, Qle_bool_iff. intros Hle.
  exists cb, ca. split_and!; [done..|]. lra.
Qed.

Lemma collectFoodItems_confidence (visionResults : VisionResults) item :
  item ∈ collectFoodItems visionResults -> is_Some (confidence item).
Proof.
  rewrite collectFoodItems_app, elem_of_app.
  rewrite elem_of_foldl_pushLabel, elem_of_foldl_pushObject.
  intros [(? & _ & _ & ->) | (? & _ & _ & ->)]; by eexists.
Qed.

Lemma collectFoodItems_lowercase (visionResults : VisionResults) item :
  item ∈ collectFoodItems visionResults ->
  JS.toLowerCase (name item) = name item.
Proof.
  rewrite collectFoodItems_app, elem_of_app.
  rewrite elem_of_foldl_pushLabel, elem_of_foldl_pushObject.
  intros [(? & _ & _ & ->) | (? & _ & _ & ->)]; apply toLowerCase_idemp.
Qed.

Lemma removeDuplicates_subseteq (l : list FoodItem) item :
  item ∈ removeDuplicates l -> item ∈ l.
Proof.
  intros (before & after & -> & _)%elem_of_removeDuplicatesFrom.
  apply elem_of_app. right. by left.
Qed.

Lemma extractFoodItems_removeDuplicates (visionResults : VisionResults) item :
  item ∈ extractFoodItems visionResults ->
  item ∈ removeDuplicates (collectFoodItems visionResults).
Proof.
  unfold extractFoodItems, JS.slice0. intros Hin.
  eapply elem_of_sublist in Hin; [|apply sublist_take].
  by rewrite sort_Permutation in Hin.
Qed.

End extractor_facts.

(** ** The food extractor: claims *)

(** C2, as stated, fails: a detection with confidence exactly 0.7 and a
    food-matching name ("rice") is not kept; the extractor returns the empty
    sequence for it. *)
Lemma extractFoodItems_drops_confidence_0_7 :
  (0.7 <= score riceAtThreshold)%Q /\
  (exists keyword, keyword ∈ foodKeywords /\
     Substring keyword (JS.toLowerCase (description riceAtThreshold))) /\
  extractFoodItems (onlyLabel riceAtThreshold) = [].
Proof.
  split_and!.
  - by vm_compute.
  - apply isFoodRelated_spec. by vm_compute.
  - by vm_compute.
Qed.

(** C2, amended: the extractor's filter admits a detection as a candidate
    (for deduplication, ranking and truncation) if and only if its confidence
    is strictly greater than 0.7 and its lowercased name contains a term of
    the vocabulary; every item of the output is such a candidate; a detection
    alone in the response is kept exactly when it passes; and a detection
    whose confidence is exactly 0.7 never passes. *)
Theorem extractFoodItems_filter_strict (visionResults : VisionResults) :
  (forall item,
     item ∈ collectFoodItems visionResults <->
     (exists l, l ∈ default [] (labelAnnotations visionResults) /\
        labelPasses l /\ item = labelItem l) \/
     (exists obj,
        obj ∈ default [] (localizedObjectAnnotations visionResults) /\
        objectPasses obj /\ item = objectItem obj)) /\
  (forall item,
     item ∈ extractFoodItems visionResults ->
     item ∈ collectFoodItems visionResults) /\
  (forall l,
     (labelPasses l <-> extractFoodItems (onlyLabel l) = [labelItem l]) /\
     (~ labelPasses l <-> extractFoodItems (onlyLabel l) = []) /\
     ((score l == 0.7)%Q -> ~ labelPasses l)).
Proof.
  split_and!.
  - intros item. rewrite collectFoodItems_app, elem_of_app.
    by rewrite elem_of_foldl_pushLabel, elem_of_foldl_pushObject.
  - intros item Hin%extractFoodItems_removeDuplicates.
    by apply removeDuplicates_subseteq.
  - intros l.
    assert (Hout : extractFoodItems (onlyLabel l) =
                   if JS.gt (score l) 0.7 && isFoodRelated (description l)
                   then [labelItem l] else []).
    { unfold extractFoodItems, collectFoodItems, removeDuplicates. simpl.
      unfold pushLabel. destruct (_ && _); simpl; [|done].
      destruct (decide _) as [Hin|_]; [|done]. by apply elem_of_empty in Hin. }
    rewrite Hout, <- label_filter_spec.
    split_and!.
    + destruct (_ && _); split; done.
    + destruct (_ && _); split; done.
    + intros Heq [Hlt%gt_spec _]%andb_true_iff. lra.
Qed.

Lemma extractFoodItems_filter_strict_witness :
  extractFoodItems (onlyLabel riceAtThreshold) = [] /\
  extractFoodItems (onlyLabel {| description := "Rice"; score := 0.71 |})
    = [labelItem {| description := "Rice"; score := 0.71 |}].
Proof.
  split.
  - apply (extractFoodItems_filter_strict busyPlate). intros [Hlt _].
    by vm_compute in Hlt.
  - apply (extractFoodItems_filter_strict busyPlate).
    apply label_filter_spec. by vm_compute.
Defined.

(** C5: the output of the extractor has at most one item per lowercased
    name, and the item kept for a name is its first occurrence among the
    candidates, where every label-sourced candidate precedes the
    object-sourced ones (so an output item that shares its name with a
    passing label detection is label-sourced); it is sorted by confidence,
    descending; and it holds at most 10 items. *)
Theorem extractFoodItems_unique_sorted_capped (visionResults : VisionResults) :
  NoDup (JS.toLowerCase ∘ name <$> extractFoodItems visionResults) /\
  (forall item,
     item ∈ extractFoodItems visionResults ->
     exists before after,
       collectFoodItems visionResults = before ++ item :: after /\
       (name item ∉ name <$> before)) /\
  (forall item l,
     item ∈ extractFoodItems visionResults ->
     l ∈ default [] (labelAnnotations visionResults) -> labelPasses l ->
     name item = name (labelItem l) -> source item = label) /\
  StronglySorted byConfidenceDesc (extractFoodItems visionResults) /\
  Forall (fun item => is_Some (confidence item))
    (extractFoodItems visionResults) /\
  length (extractFoodItems visionResults) <= 10.
Proof.
  assert (Hsome : Forall (fun item => is_Some (confidence item))
                    (removeDuplicates (collectFoodItems visionResults))).
  { apply Forall_forall. intros item Hin%removeDuplicates_subseteq.
    by eapply collectFoodItems_confidence. }
  split_and!.
  - assert (Hnames : JS.toLowerCase ∘ name <$> extractFoodItems visionResults
                     = name <$> extractFoodItems visionResults).
    { apply list_fmap_ext. intros i item Hi. simpl.
      eapply collectFoodItems_lowercase, removeDuplicates_subseteq,
        extractFoodItems_removeDuplicates, list_elem_of_lookup_2, Hi. }
    rewrite Hnames. unfold extractFoodItems, JS.slice0.
    eapply sublist_NoDup; [|apply fmap_sublist, sublist_take].
    rewrite sort_Permutation. apply removeDuplicatesFrom_NoDup.
  - intros item Hin%extractFoodItems_removeDuplicates.
    apply elem_of_removeDuplicatesFrom in Hin as (before & after & ? & _ & ?).
    by exists before, after.
  - intros item l Hin%extractFoodItems_removeDuplicates Hl Hpass Hname.
    unfold removeDuplicates in Hin.
    rewrite collectFoodItems_app, removeDuplicatesFrom_app in Hin.
    apply elem_of_app in Hin as [Hin | Hin].
    + apply (removeDuplicates_subseteq _ item) in Hin.
      by apply elem_of_foldl_pushLabel in Hin as (? & _ & _ & ->).
    + apply elem_of_removeDuplicatesFrom in Hin as (_ & _ & _ & Hseen & _).
      exfalso. apply Hseen, elem_of_union_l, elem_of_list_to_set.
      rewrite Hname. apply list_elem_of_fmap_2, elem_of_foldl_pushLabel.
      by exists l.
  - unfold extractFoodItems, JS.slice0. apply StronglySorted_take.
    eapply sort_StronglySorted; [| | |exact Hsome].
    + apply byConfidenceDesc_trans.
    + apply byConfidence_keeps.
    + apply byConfidence_swaps.
  - unfold extractFoodItems, JS.slice0. apply Forall_take.
    by rewrite sort_Permutation.
  - unfold extractFoodItems, JS.slice0. rewrite length_take. lia.
Qed.

Lemma extractFoodItems_unique_sorted_capped_witness :
  NoDup (JS.toLowerCase ∘ name <$> extractFoodItems busyPlate) /\
  StronglySorted byConfidenceDesc (extractFoodItems busyPlate) /\
  length (extractFoodItems busyPlate) <= 10.
Proof.
  destruct (extractFoodItems_unique_sorted_capped busyPlate)
    as (Hnodup & _ & _ & Hsorted & _ & Hlen).
  by split_and!.
Defined.

(** ** Facts about the nutrient aggregator *)

Section aggregator_facts.

Implicit Types (v acc : Nutrition) (food : FoodItem).

Lemma foldl_combineResult (env : Env) (rest before : list FoodItem) acc :
  foldl (combineResult (before ++ rest)) acc
    (imap (fun i result => (length before + i, result))
       ((fun food => fulfilled (getFoodNutrition env (name food))) <$> rest))
  = foldl (combineFood env) acc rest.
Proof.
  revert before acc. induction rest as [|food rest IH]; intros before acc.
  - done.
  - rewrite fmap_cons, imap_cons. simpl.
    rewrite list_lookup_middle by lia.
    rewrite (cons_middle food before rest), (assoc_L (++)).
    rewrite <- (IH (before ++ [food])). f_equal.
    apply imap_ext. intros i result _. simpl.
    rewrite length_app. simpl. f_equal. lia.
Qed.

Lemma getNutritionalData_foldl (env : Env) (recognizedFoods : list FoodItem) :
  getNutritionalData env recognizedFoods =
  foldl (combineFood env) zeroNutrition recognizedFoods.
Proof. apply (foldl_combineResult env recognizedFoods []). Qed.



Lemma lookup_addWeighted v (weight : Q) acc (key : string) :
  addWeighted v weight acc !! key =
  (fun a => match v !! key with
            | Some q => if JS.truthy q then (a + q * weight)%Q else a
            | None => a
            end) <$> acc !! key.
Proof.
  unfold addWeighted. rewrite map_lookup_imap. by destruct (acc !! key).
Qed.

Lemma lookup_addWeightedOr0 v (weight : Q) acc (key : string) :
  addWeightedOr0 v weight acc !! key =
  (fun a => (a + JS.or_default (v !! key) 0 * weight)%Q) <$> acc !! key.
Proof.
  unfold addWeightedOr0. rewrite map_lookup_imap. by destruct (acc !! key).
Qed.

Lemma zeroNutrition_lookup (key : string) :
  zeroNutrition !! key =
  if decide (key ∈ nutrientKeys) then Some 0%Q else None.
Proof.
  assert (Hkeys : ((fun key => (key, 0%Q)) <$> nutrientKeys).*1 = nutrientKeys)
    by reflexivity.
  unfold zeroNutrition. destruct (decide _) as [Hin|Hout].
  - apply elem_of_list_to_map_1.
    + rewrite Hkeys. apply (bool_decide_unpack _). by vm_compute.
    + apply list_elem_of_fmap. by exists key.
  - apply not_elem_of_list_to_map_1. by rewrite Hkeys.
Qed.

Lemma zeroNutrition_wellFormed : wellFormed zeroNutrition.
Proof.
  split.
  - intros key. rewrite zeroNutrition_lookup.
    destruct (decide _); split; done.
  - intros key q. rewrite zeroNutrition_lookup.
    destruct (decide _); intros [= <-]. done.
Qed.

Lemma addWeighted_wellFormed v (weight : Q) acc :
  nonNegative v -> (0 <= weight)%Q ->
  wellFormed acc -> wellFormed (addWeighted v weight acc).
Proof.
  intros Hv Hw [Hkeys Hacc]. split.
  - intros key. rewrite lookup_addWeighted, fmap_is_Some. apply Hkeys.
  - intros key q. rewrite lookup_addWeighted.
    destruct (acc !! key) as [a|] eqn:Ha; [|done]. simpl. intros [= <-].
    specialize (Hacc key a Ha).
    destruct (v !! key) as [x|] eqn:Hx; [|done].
    specialize (Hv key x Hx). destruct (JS.truthy x); [nra | done].
Qed.

Lemma addWeightedOr0_wellFormed v (weight : Q) acc :
  nonNegative v -> (0 <= weight)%Q ->
  wellFormed acc -> wellFormed (addWeightedOr0 v weight acc).
Proof.
  intros Hv Hw [Hkeys Hacc]. split.
  - intros key. rewrite lookup_addWeightedOr0, fmap_is_Some. apply Hkeys.
  - intros key q. rewrite lookup_addWeightedOr0.
    destruct (acc !! key) as [a|] eqn:Ha; [|done]. simpl. intros [= <-].
    specialize (Hacc key a Ha).
    assert (0 <= JS.or_default (v !! key) 0)%Q.
    { apply or_default_nonneg; [done | apply Hv]. }
    nra.
Qed.

Lemma foldl_wellFormed {A} (step : Nutrition -> A -> Nutrition)
  (P : A -> Prop) (l : list A) acc :
  (forall acc x, P x -> wellFormed acc -> wellFormed (step acc x)) ->
  Forall P l -> wellFormed acc -> wellFormed (foldl step acc l).
Proof.
  intros Hstep HP. revert acc.
  induction HP as [|x l Hx HP IH]; intros acc Hacc; simpl; [done|].
  by apply IH, Hstep.
Qed.

Lemma entry_nonNegative (calories protein carbs fat fiber sugar sodium
    potassium : Q) :
  (0 <= calories)%Q -> (0 <= protein)%Q -> (0 <= carbs)%Q -> (0 <= fat)%Q ->
  (0 <= fiber)%Q -> (0 <= sugar)%Q -> (0 <= sodium)%Q ->
  (0 <= potassium)%Q ->
  nonNegative
    (entry calories protein carbs fat fiber sugar sodium potassium).
Proof.
  intros ???????? key q Hq. apply elem_of_list_to_map_2 in Hq.
  repeat (apply elem_of_cons in Hq as [[= -> ->] | Hq]; [done|]).
  by apply elem_of_nil in Hq.
Qed.

Lemma nutritionDB_nonNegative :
  Forall (fun kv => nonNegative kv.2) nutritionDB.
Proof.
  repeat (apply Forall_cons; split;
          [apply entry_nonNegative; by vm_compute|]).
  apply Forall_nil_2.
Qed.

Lemma getLocalNutritionData_nonNegative (foodName : string) :
  nonNegative (getLocalNutritionData foodName).
Proof.
  unfold getLocalNutritionData.
  generalize (JS.toLowerCase foodName). intros lowerFoodName.
  pose proof nutritionDB_nonNegative as Hdb.
  induction Hdb as [|[key nutrition] entries Hkey Hdb IH]; simpl.
  - apply entry_nonNegative; by vm_compute.
  - destruct (_ || _); [exact Hkey | exact IH].
Qed.

End aggregator_facts.

(** ** The nutrient aggregator: claims *)

(** C7: when every food's resolved nutrient vector is keywise non-negative
    and every confidence is non-negative, the meal-level vector has exactly
    the fifteen nutrient keys, each present with a value of at least 0. *)
Theorem getNutritionalData_nonNegative (env : Env)
    (recognizedFoods : list FoodItem) :
  Forall (fun food => forall c, confidence food = Some c -> (0 <= c)%Q)
    recognizedFoods ->
  Forall (fun food => nonNegative (getFoodNutrition env (name food)))
    recognizedFoods ->
  dom (getNutritionalData env recognizedFoods) = list_to_set nutrientKeys /\
  (forall key, key ∈ nutrientKeys ->
     exists q, getNutritionalData env recognizedFoods !! key = Some q /\
               (0 <= q)%Q) /\
  (forall key, key ∈ nutrientKeys ->
     exists q, getFallbackNutrition recognizedFoods !! key = Some q /\
               (0 <= q)%Q).
Proof.
  intros Hconf Hvec.
  assert (Hwf : wellFormed (getNutritionalData env recognizedFoods)).
  { rewrite getNutritionalData_foldl.
    eapply (foldl_wellFormed _ (fun food =>
              (forall c, confidence food = Some c -> (0 <= c)%Q) /\
              nonNegative (getFoodNutrition env (name food)))).
    - intros acc x [Hc Hv] Hacc. apply addWeighted_wellFormed; [done | | done].
      by apply or_default_nonneg.
    - apply Forall_and. by split.
    - apply zeroNutrition_wellFormed. }
  assert (Hwf' : wellFormed (getFallbackNutrition recognizedFoods)).
  { eapply foldl_wellFormed; [|exact Hconf|apply zeroNutrition_wellFormed].
    intros acc x Hc Hacc. apply addWeightedOr0_wellFormed.
    - apply getLocalNutritionData_nonNegative.
    - by apply or_default_nonneg.
    - done. }
  destruct Hwf as [Hkeys Hnn], Hwf' as [Hkeys' Hnn']. split_and!.
  - apply set_eq. intros key.
    by rewrite elem_of_dom, elem_of_list_to_set, Hkeys.
  - intros key [q Hq]%Hkeys. exists q. split; [done|]. by eapply Hnn.
  - intros key [q Hq]%Hkeys'. exists q. split; [done|]. by eapply Hnn'.
Qed.

Lemma getNutritionalData_nonNegative_witness :
  dom (getNutritionalData offlineEnv riceAndChicken)
    = list_to_set nutrientKeys /\
  (forall key, key ∈ nutrientKeys ->
     exists q, getNutritionalData offlineEnv riceAndChicken !! key = Some q /\
               (0 <= q)%Q) /\
  (forall key, key ∈ nutrientKeys ->
     exists q, getFallbackNutrition riceAndChicken !! key = Some q /\
               (0 <= q)%Q).
Proof.
  apply (getNutritionalData_nonNegative offlineEnv riceAndChicken).
  - repeat constructor; intros c [= <-]; by vm_compute.
  - repeat constructor; apply getLocalNutritionData_nonNegative.
Defined.





(** ** Facts about the risk evaluator *)

Section risk_facts.

Implicit Types (nutrition : Nutrition) (conditions : list HealthCondition).

Lemma hasCondition_spec conditions (code : string) :
  hasCondition conditions code = true <-> holds conditions code.
Proof.
  unfold hasCondition, holds. rewrite existsb_exists.
  setoid_rewrite <- list_elem_of_In. by setoid_rewrite String.eqb_eq.
Qed.

Lemma pushIfAbove_app {A} (x : option Q) (limit : Q) (make : Q -> A)
    (l : list A) :
  pushIfAbove x limit make l = l ++ pushIfAbove x limit make [].
Proof.
  unfold pushIfAbove. destruct x as [v|]; [|by rewrite app_nil_r].
  destruct (JS.gt v limit); [done | by rewrite app_nil_r].
Qed.

Lemma pushIfAbove_above {A} (x : option Q) (limit v : Q) (make : Q -> A) :
  x = Some v -> (limit < v)%Q -> pushIfAbove x limit make [] = [make v].
Proof.
  intros -> Hlt%gt_spec. unfold pushIfAbove. by rewrite Hlt.
Qed.

Lemma pushIfAbove_below {A} (x : option Q) (limit : Q) (make : Q -> A) :
  (forall v, x = Some v -> (v <= limit)%Q) -> pushIfAbove x limit make [] = [].
Proof.
  intros Hle. unfold pushIfAbove. destruct x as [v|]; [|done].
  specialize (Hle v eq_refl). apply gt_false in Hle. by rewrite Hle.
Qed.

Lemma elem_of_rule {A} (on : bool) (x : option Q) (limit : Q)
    (make : Q -> A) (y : A) :
  y ∈ rule on x limit make <->
  on = true /\ exists v, x = Some v /\ (limit < v)%Q /\ y = make v.
Proof.
  unfold rule, pushIfAbove. destruct on.
  - destruct x as [v|].
    + destruct (JS.gt v limit) eqn:Hgt.
      * apply gt_spec in Hgt. simpl. rewrite list_elem_of_singleton. split.
        -- intros ->. split; [done|]. by exists v.
        -- by intros (_ & ? & [= <-] & _ & ->).
      * apply gt_false in Hgt. split; [by intros ?%elem_of_nil|].
        intros (_ & ? & [= <-] & ? & _). lra.
    + split; [by intros ?%elem_of_nil | by intros (_ & ? & ? & _)].
  - split; [by intros ?%elem_of_nil | by intros [? _]].
Qed.

Lemma filter_rule_other {A} (P : A -> Prop) `{!forall y, Decision (P y)}
    (on : bool) (x : option Q) (limit : Q) (make : Q -> A) :
  (forall v, ~ P (make v)) -> filter P (rule on x limit make) = [].
Proof.
  intros Hno. unfold rule, pushIfAbove. destruct on; [|done].
  destruct x as [v|]; [|done]. destruct (JS.gt v limit); [|done].
  simpl. rewrite filter_cons, decide_False; [done | apply Hno].
Qed.

Lemma filter_rule_same {A} (P : A -> Prop) `{!forall y, Decision (P y)}
    (on : bool) (x : option Q) (limit : Q) (make : Q -> A) :
  (forall v, P (make v)) ->
  filter P (rule on x limit make) = rule on x limit make.
Proof.
  intros Hyes. unfold rule, pushIfAbove. destruct on; [|done].
  destruct x as [v|]; [|done]. destruct (JS.gt v limit); [|done].
  simpl. rewrite filter_cons, decide_True; [done | apply Hyes].
Qed.

(** The findings are the rows of the rule table, in the order of the
    table; the warnings are the calorie check alone. *)
Lemma analyzeHealthRisks_rules nutrition (userProfile : UserProfile) :
  let conditions := default [] (healthConditions userProfile) in
  risks (analyzeHealthRisks nutrition (Some userProfile)) =
    rule (hasCondition conditions "diabetes") (nutrition !! "carbs") 60
      carbsFinding ++
    rule (hasCondition conditions "diabetes") (nutrition !! "sugar") 15
      sugarFinding ++
    rule (hasCondition conditions "bp") (nutrition !! "sodium") 500
      sodiumFinding ++
    rule (hasCondition conditions "kidney") (nutrition !! "potassium") 400
      potassiumFinding ++
    rule (hasCondition conditions "cholesterol") (nutrition !! "fat") 20
      fatFinding /\
  warnings (analyzeHealthRisks nutrition (Some userProfile)) =
    pushIfAbove (nutrition !! "calories") 600 caloriesWarning [].
Proof.
  simpl. split; [|done]. unfold rule.
  destruct (hasCondition _ "diabetes"), (hasCondition _ "bp"),
    (hasCondition _ "kidney"), (hasCondition _ "cholesterol");
    rewrite ?(pushIfAbove_app _ _ _ (pushIfAbove _ _ _ _));
    rewrite ?app_nil_r, <- ?app_assoc; reflexivity.
Qed.

End risk_facts.

(** ** The risk evaluator: claims *)

(** C1, as stated, fails: with no user profile at all the evaluator returns
    before the calorie check, so a meal of 700 calories gets no warning. *)
Lemma analyzeHealthRisks_absent_profile_no_warning :
  heavyMeal !! "calories" = Some 700%Q /\ (600 < 700)%Q /\
  warnings (analyzeHealthRisks heavyMeal None) = [].
Proof. split_and!; by vm_compute. Qed.

(** C1, amended: for every user profile that is present, whatever its
    condition data, a nutrient vector with calories > 600 yields the generic
    high-calorie warning, and that is the only warning; when the profile
    carries no conditions (the list is missing or empty) no finding is
    produced.  When the profile itself is absent the evaluator returns no
    findings and no warnings. *)
Theorem analyzeHealthRisks_calorie_warning (nutrition : Nutrition)
    (userProfile : UserProfile) (calories : Q) :
  nutrition !! "calories" = Some calories -> (600 < calories)%Q ->
  warnings (analyzeHealthRisks nutrition (Some userProfile))
    = [caloriesWarning calories] /\
  (healthConditions userProfile = None \/
   healthConditions userProfile = Some [] ->
   risks (analyzeHealthRisks nutrition (Some userProfile)) = []) /\
  analyzeHealthRisks nutrition None = {| risks := []; warnings := [] |}.
Proof.
  intros Hcal Hlt.
  destruct (analyzeHealthRisks_rules nutrition userProfile) as [Hr Hw].
  split_and!.
  - rewrite Hw. by apply pushIfAbove_above.
  - intros Hnone. rewrite Hr. by destruct Hnone as [-> | ->].
  - done.
Qed.

Lemma analyzeHealthRisks_calorie_warning_witness :
  warnings (analyzeHealthRisks heavyMeal (Some (user [])))
    = [caloriesWarning 700] /\
  (healthConditions (user []) = None \/ healthConditions (user []) = Some [] ->
   risks (analyzeHealthRisks heavyMeal (Some (user []))) = []) /\
  analyzeHealthRisks heavyMeal None = {| risks := []; warnings := [] |}.
Proof.
  apply (analyzeHealthRisks_calorie_warning heavyMeal (user []) 700).
  - by vm_compute.
  - by vm_compute.
Defined.

(** C3: for a user holding both diabetes and bp, and a nutrient vector with
    carbs = 70, sugar = 20, sodium = 600 and the other triggers at or below
    their thresholds, the findings are exactly three, in this order: a
    high_carbs warning, a high_sugar danger and a high_sodium danger. *)
Theorem analyzeHealthRisks_diabetes_bp (nutrition : Nutrition)
    (userProfile : UserProfile) (conditions : list HealthCondition) :
  healthConditions userProfile = Some conditions ->
  holds conditions "diabetes" -> holds conditions "bp" ->
  nutrition !! "carbs" = Some 70%Q ->
  nutrition !! "sugar" = Some 20%Q ->
  nutrition !! "sodium" = Some 600%Q ->
  (forall v, nutrition !! "potassium" = Some v -> (v <= 400)%Q) ->
  (forall v, nutrition !! "fat" = Some v -> (v <= 20)%Q) ->
  risks (analyzeHealthRisks nutrition (Some userProfile))
    = [carbsFinding 70; sugarFinding 20; sodiumFinding 600] /\
  (fun f => (type f, severity f)) <$>
      risks (analyzeHealthRisks nutrition (Some userProfile))
    = [(high_carbs, warning); (high_sugar, danger); (high_sodium, danger)].
Proof.
  intros Hc Hd%hasCondition_spec Hbp%hasCondition_spec Hcarbs Hsugar Hsodium
    Hpot Hfat.
  destruct (analyzeHealthRisks_rules nutrition userProfile) as [Hr _].
  rewrite Hr, Hc. simpl. rewrite Hd, Hbp. unfold rule.
  rewrite (pushIfAbove_above _ _ 70), (pushIfAbove_above _ _ 20),
    (pushIfAbove_above _ _ 600) by done.
  rewrite (pushIfAbove_below (nutrition !! "potassium")),
    (pushIfAbove_below (nutrition !! "fat")) by done.
  by destruct (hasCondition conditions "kidney"),
    (hasCondition conditions "cholesterol").
Qed.

Lemma analyzeHealthRisks_diabetes_bp_witness :
  risks (analyzeHealthRisks starchySaltyMeal (Some (user ["diabetes"; "bp"])))
    = [carbsFinding 70; sugarFinding 20; sodiumFinding 600] /\
  (fun f => (type f, severity f)) <$>
      risks (analyzeHealthRisks starchySaltyMeal
               (Some (user ["diabetes"; "bp"])))
    = [(high_carbs, warning); (high_sugar, danger); (high_sodium, danger)].
Proof.
  apply (analyzeHealthRisks_diabetes_bp starchySaltyMeal
           (user ["diabetes"; "bp"])
           (default [] (healthConditions (user ["diabetes"; "bp"])))).
  - reflexivity.
  - apply hasCondition_spec. reflexivity.
  - apply hasCondition_spec. reflexivity.
  - by vm_compute.
  - by vm_compute.
  - by vm_compute.
  - intros v Hv. vm_compute in Hv. injection Hv as <-. by vm_compute.
  - intros v Hv. vm_compute in Hv. injection Hv as <-. by vm_compute.
Defined.

(** C4: the sodium rule fires on strictly exceeding its threshold.  For a
    user holding bp, a vector with sodium exactly 500 yields no high_sodium
    finding, and one with sodium 500.01 yields exactly one, a danger; in
    general the high_sodium findings are one finding when sodium > 500 and
    none otherwise. *)
Theorem analyzeHealthRisks_sodium_boundary (nutrition : Nutrition)
    (userProfile : UserProfile) (conditions : list HealthCondition)
    (sodium : Q) :
  healthConditions userProfile = Some conditions ->
  holds conditions "bp" ->
  nutrition !! "sodium" = Some sodium ->
  let found := filter (fun f => type f = high_sodium)
                 (risks (analyzeHealthRisks nutrition (Some userProfile))) in
  ((sodium == 500)%Q -> found = []) /\
  ((sodium == 500.01)%Q ->
     found = [sodiumFinding sodium] /\
     severity (sodiumFinding sodium) = danger) /\
  ((500 < sodium)%Q <-> found = [sodiumFinding sodium]) /\
  ((sodium <= 500)%Q <-> found = []).
Proof.
  intros Hc Hbp%hasCondition_spec Hsodium found.
  assert (Hfound : found = if JS.gt sodium 500
                           then [sodiumFinding sodium] else []).
  { unfold found.
    destruct (analyzeHealthRisks_rules nutrition userProfile) as [Hr _].
    rewrite Hr, Hc. simpl. rewrite !filter_app.
    rewrite (filter_rule_other _ _ _ _ carbsFinding),
      (filter_rule_other _ _ _ _ sugarFinding),
      (filter_rule_other _ _ _ _ potassiumFinding),
      (filter_rule_other _ _ _ _ fatFinding) by done.
    rewrite (filter_rule_same _ _ _ _ sodiumFinding) by done.
    rewrite Hbp, Hsodium, app_nil_r. simpl. unfold pushIfAbove.
    by destruct (JS.gt sodium 500). }
  rewrite Hfound. destruct (JS.gt sodium 500) eqn:Hgt.
  - apply gt_spec in Hgt. split_and!.
    + intros Heq. lra.
    + done.
    + done.
    + split; [intros Hle; lra | done].
  - apply gt_false in Hgt. split_and!.
    + done.
    + intros Heq. lra.
    + split; [intros Hlt; lra | done].
    + done.
Qed.

Lemma analyzeHealthRisks_sodium_boundary_witness :
  filter (fun f => type f = high_sodium)
    (risks (analyzeHealthRisks (mealOf [("sodium", 500%Q)]%string)
              (Some (user ["bp"])))) = [] /\
  filter (fun f => type f = high_sodium)
    (risks (analyzeHealthRisks (mealOf [("sodium", 500.01%Q)]%string)
              (Some (user ["bp"])))) = [sodiumFinding 500.01].
Proof.
  split.
  - apply (analyzeHealthRisks_sodium_boundary
             (mealOf [("sodium", 500%Q)]%string)
             (user ["bp"]) (default [] (healthConditions (user ["bp"]))) 500).
    + reflexivity.
    + apply hasCondition_spec. reflexivity.
    + by vm_compute.
    + by vm_compute.
  - apply (analyzeHealthRisks_sodium_boundary
             (mealOf [("sodium", 500.01%Q)]%string)
             (user ["bp"]) (default [] (healthConditions (user ["bp"])))
             500.01).
    + reflexivity.
    + apply hasCondition_spec. reflexivity.
    + by vm_compute.
    + by vm_compute.
Defined.

(** C9: every finding the evaluator produces has value > threshold, and
    its type determines its severity: warning exactly for high_carbs and
    high_fat, danger exactly for high_sugar, high_sodium and
    high_potassium. *)
Theorem analyzeHealthRisks_findings_sound (nutrition : Nutrition)
    (userProfile : option UserProfile) (f : RiskFinding) :
  f ∈ risks (analyzeHealthRisks nutrition userProfile) ->
  (threshold f < value f)%Q /\
  (severity f = warning <-> type f = high_carbs \/ type f = high_fat) /\
  (severity f = danger <->
     type f = high_sugar \/ type f = high_sodium \/ type f = high_potassium).
Proof.
  destruct userProfile as [userProfile|]; [|by intros ?%elem_of_nil].
  destruct (analyzeHealthRisks_rules nutrition userProfile) as [Hr _].
  rewrite Hr, !elem_of_app, !elem_of_rule.
  intros [H | [H | [H | [H | H]]]];
    destruct H as (_ & v & _ & Hlt & ->); simpl;
    (split_and!; [done | split | split]); intros; intuition congruence.
Qed.

Lemma analyzeHealthRisks_findings_sound_witness :
  (threshold (sugarFinding 20) < value (sugarFinding 20))%Q /\
  (severity (sugarFinding 20) = warning <->
     type (sugarFinding 20) = high_carbs \/
     type (sugarFinding 20) = high_fat) /\
  (severity (sugarFinding 20) = danger <->
     type (sugarFinding 20) = high_sugar \/
     type (sugarFinding 20) = high_sodium \/
     type (sugarFinding 20) = high_potassium).
Proof.
  apply (analyzeHealthRisks_findings_sound starchySaltyMeal
           (Some (user ["diabetes"; "bp"]))).
  assert (risks (analyzeHealthRisks starchySaltyMeal
                   (Some (user ["diabetes"; "bp"])))
          = [carbsFinding 70; sugarFinding 20; sodiumFinding 600]) as ->
    by (by vm_compute).
  apply list_elem_of_further, list_elem_of_here.
Defined.

(** ** The categorizer *)

Section categorizer_facts.



End categorizer_facts.




(** * Further properties of the engine *)

(** ** The food extractor *)

Section extractor_more.

Implicit Types (item : FoodItem) (seen : gset string).

Lemma removeDuplicatesFrom_sublist seen (l : list FoodItem) :
  removeDuplicatesFrom seen l `sublist_of` l.
Proof.
  revert seen. induction l as [|x l IH]; intros seen; simpl; [done|].
  destruct (decide _); [apply sublist_cons | apply sublist_skip]; apply IH.
Qed.

Lemma removeDuplicatesFrom_names seen (l : list FoodItem) item :
  item ∈ l ->
  name item ∈ seen \/ name item ∈ name <$> removeDuplicatesFrom seen l.
Proof.
  revert seen. induction l as [|x l IH]; intros seen Hin;
    [by apply elem_of_nil in Hin|].
  simpl. apply elem_of_cons in Hin as [-> | Hin].
  - destruct (decide _); [by left|]. right. rewrite fmap_cons. by left.
  - destruct (decide (name x ∈ seen)); [by apply IH|].
    destruct (IH ({[name x]} ∪ seen) Hin) as [Hs | Hs].
    + apply elem_of_union in Hs as [->%elem_of_singleton | Hs]; [|by left].
      right. rewrite fmap_cons. by left.
    + right. rewrite fmap_cons. by right.
Qed.

Lemma removeDuplicatesFrom_id seen (l : list FoodItem) :
  (forall item, item ∈ l -> name item ∉ seen) ->
  NoDup (name <$> l) -> removeDuplicatesFrom seen l = l.
Proof.
  revert seen. induction l as [|x l IH]; intros seen Hseen Hnd; simpl; [done|].
  rewrite fmap_cons in Hnd. apply NoDup_cons in Hnd as [Hx Hnd].
  rewrite decide_False by (apply Hseen; by left). f_equal.
  apply IH; [|done]. intros item Hin.
  apply not_elem_of_union. split; [|apply Hseen; by right].
  rewrite not_elem_of_singleton. intros Heq. apply Hx. rewrite <- Heq.
  by apply list_elem_of_fmap_2.
Qed.

Lemma StronglySorted_app_elems {A} (R : A -> A -> Prop) (l1 l2 : list A) :
  StronglySorted R (l1 ++ l2) ->
  forall x y, x ∈ l1 -> y ∈ l2 -> R x y.
Proof.
  induction l1 as [|a l1 IH]; simpl; intros Hs x y Hx Hy;
    [by apply elem_of_nil in Hx|].
  apply StronglySorted_inv in Hs as [Hs Ha].
  apply elem_of_cons in Hx as [-> | Hx]; [|by apply IH].
  rewrite Forall_forall in Ha. apply Ha, elem_of_app. by right.
Qed.

Lemma sorted_unique_candidates (visionResults : VisionResults) :
  StronglySorted byConfidenceDesc
    (JS.sort byConfidence (removeDuplicates (collectFoodItems visionResults))).
Proof.
  eapply sort_StronglySorted.
  - apply byConfidenceDesc_trans.
  - apply byConfidence_keeps.
  - apply byConfidence_swaps.
  - apply Forall_forall. intros item Hin%removeDuplicates_subseteq.
    by eapply collectFoodItems_confidence.
Qed.

Lemma insert_hasConfidence (c : Q) (a : FoodItem) (l : list FoodItem) :
  filter (hasConfidence c) (JS.insert byConfidence a l)
  = filter (hasConfidence c) (a :: l).
Proof.
  induction l as [|b l IH]; simpl; [done|].
  destruct (JS.keepsOrder byConfidence a b) eqn:Hk; [done|].
  rewrite filter_cons, IH, !filter_cons.
  destruct (decide (hasConfidence c b)) as [Hb|Hb],
    (decide (hasConfidence c a)) as [Ha|Ha]; try done.
  exfalso. unfold JS.keepsOrder, byConfidence, hasConfidence in *.
  destruct (confidence a) as [ca|], (confidence b) as [cb|]; try done.
  apply not_true_iff_false in Hk. apply Hk, Qle_bool_iff. lra.
Qed.

End extractor_more.

(** X1: [removeDuplicates] only drops items: what it returns is a sublist
    of its input (the order is kept), and no name is lost, every name of the
    input is the name of an item it returns. *)
Theorem removeDuplicates_keeps_every_name (foodItems : list FoodItem) :
  removeDuplicates foodItems `sublist_of` foodItems /\
  (forall item, item ∈ foodItems ->
     exists kept, kept ∈ removeDuplicates foodItems /\ name kept = name item).
Proof.
  split; [apply removeDuplicatesFrom_sublist|].
  intros item Hin.
  destruct (removeDuplicatesFrom_names ∅ foodItems item Hin) as [Hs | Hs];
    [by apply elem_of_empty in Hs|].
  apply list_elem_of_fmap in Hs as (kept & Hname & Hkept). by exists kept.
Qed.

(** X2: [removeDuplicates] returns a list whose names are pairwise distinct
    unchanged, so a second pass changes nothing. *)
Theorem removeDuplicates_idempotent (foodItems : list FoodItem) :
  (NoDup (name <$> foodItems) -> removeDuplicates foodItems = foodItems) /\
  removeDuplicates (removeDuplicates foodItems) = removeDuplicates foodItems.
Proof.
  assert (Hid : forall l : list FoodItem,
            NoDup (name <$> l) -> removeDuplicates l = l).
  { intros l. apply removeDuplicatesFrom_id. intros item _.
    apply not_elem_of_empty. }
  split; [apply Hid|]. apply Hid, removeDuplicatesFrom_NoDup.
Qed.

(** X3: the truncation keeps the best: every deduplicated candidate left
    out of the output has a confidence no higher than that of any item
    kept; the output holds [min 10 n] of the [n] deduplicated candidates,
    and all of them when there are at most ten. *)
Theorem extractFoodItems_keeps_the_top (visionResults : VisionResults) :
  (forall kept dropped,
     kept ∈ extractFoodItems visionResults ->
     dropped ∈ removeDuplicates (collectFoodItems visionResults) ->
     dropped ∉ extractFoodItems visionResults ->
     byConfidenceDesc kept dropped) /\
  length (extractFoodItems visionResults)
    = 10 `min` length (removeDuplicates (collectFoodItems visionResults)) /\
  (length (removeDuplicates (collectFoodItems visionResults)) <= 10 ->
   extractFoodItems visionResults
     ≡ₚ removeDuplicates (collectFoodItems visionResults)).
Proof.
  unfold extractFoodItems, JS.slice0.
  set (unique := removeDuplicates (collectFoodItems visionResults)).
  split_and!.
  - intros kept dropped Hkept Hdropped Hout.
    apply (StronglySorted_app_elems _ (take 10 (JS.sort byConfidence unique))
             (drop 10 (JS.sort byConfidence unique))); [|done|].
    + rewrite take_drop. apply sorted_unique_candidates.
    + rewrite <- (sort_Permutation byConfidence unique) in Hdropped.
      rewrite <- (take_drop 10 (JS.sort byConfidence unique)) in Hdropped.
      by apply elem_of_app in Hdropped as [Hd | Hd].
  - by rewrite length_take, (Permutation_length (sort_Permutation _ _)).
  - intros Hle. rewrite take_ge; [apply sort_Permutation|].
    by rewrite (Permutation_length (sort_Permutation _ _)).
Qed.

(** X4: every item of the output passed the filter: it carries a confidence
    strictly above 0.7 and its name is food-related. *)
Theorem extractFoodItems_items_pass (visionResults : VisionResults)
    (item : FoodItem) :
  item ∈ extractFoodItems visionResults ->
  (exists c, confidence item = Some c /\ (0.7 < c)%Q) /\
  isFoodRelated (name item) = true.
Proof.
  intros Hin%extractFoodItems_removeDuplicates%removeDuplicates_subseteq.
  rewrite collectFoodItems_app, elem_of_app in Hin.
  rewrite elem_of_foldl_pushLabel, elem_of_foldl_pushObject in Hin.
  destruct Hin as [(l & _ & [Hlt Hkw] & ->) | (obj & _ & [Hlt Hkw] & ->)];
    (split; [by eexists|]); apply isFoodRelated_spec; simpl;
    by rewrite toLowerCase_idemp.
Qed.

Lemma extractFoodItems_items_pass_witness :
  (exists c,
     confidence (labelItem {| description := "Chicken"; score := 0.95 |})
       = Some c /\ (0.7 < c)%Q) /\
  isFoodRelated (name (labelItem {| description := "Chicken"; score := 0.95 |}))
    = true.
Proof.
  apply (extractFoodItems_items_pass busyPlate).
  assert (extractFoodItems busyPlate =
          [ objectItem {| obj_name := "Bowl"; obj_score := 0.96;
                          boundingPoly := None |};
            labelItem {| description := "Chicken"; score := 0.95 |};
            labelItem {| description := "Fried Rice"; score := 0.8 |} ]) as ->
    by (by vm_compute).
  apply list_elem_of_further, list_elem_of_here.
Defined.

(** X5: the sort by confidence is stable: the items that share a confidence
    stand in the sorted list in the order they had before (so among equally
    confident foods a label-sourced one stays ahead of an object-sourced
    one). *)
Theorem sort_byConfidence_stable (c : Q) (foodItems : list FoodItem) :
  filter (hasConfidence c) (JS.sort byConfidence foodItems)
  = filter (hasConfidence c) foodItems.
Proof.
  induction foodItems as [|a l IH]; simpl; [done|].
  by rewrite insert_hasConfidence, !filter_cons, IH.
Qed.

(** ** The nutrient aggregator *)

Section aggregator_more.

Implicit Types (acc : Nutrition) (food : FoodItem).

Lemma related_spec (lowerFoodName key : string) :
  JS.includes lowerFoodName key || JS.includes key lowerFoodName = true
  <-> related lowerFoodName key.
Proof. unfold related. by rewrite orb_true_iff, !includes_spec. Qed.

Lemma findBestMatch_Some (lowerFoodName : string)
    (entries : list (string * Nutrition)) (nutrition : Nutrition) :
  findBestMatch lowerFoodName entries = Some nutrition ->
  exists before key after,
    entries = before ++ (key, nutrition) :: after /\
    related lowerFoodName key /\
    forall k n, (k, n) ∈ before -> ~ related lowerFoodName k.
Proof.
  induction entries as [|[k n] entries IH]; simpl; [done|].
  destruct (_ || _) eqn:Hm.
  - intros [= <-]. exists [], k, entries. split_and!; [done| |].
    + by apply related_spec.
    + by intros ? ? ?%elem_of_nil.
  - intros (before & key & after & -> & Hrel & Hno)%IH.
    exists ((k, n) :: before), key, after. split_and!; [done..|].
    intros k' n' [[= -> ->] | Hin]%elem_of_cons; [|by eapply Hno].
    rewrite <- related_spec. by rewrite Hm.
Qed.

Lemma findBestMatch_None (lowerFoodName : string)
    (entries : list (string * Nutrition)) :
  findBestMatch lowerFoodName entries = None ->
  forall k n, (k, n) ∈ entries -> ~ related lowerFoodName k.
Proof.
  induction entries as [|[k n] entries IH]; simpl.
  - by intros _ ? ? ?%elem_of_nil.
  - destruct (_ || _) eqn:Hm; [done|]. intros Hnone k' n'.
    intros [[= -> ->] | Hin]%elem_of_cons; [|by eapply IH].
    rewrite <- related_spec. by rewrite Hm.
Qed.

Lemma entry_is_Some (calories protein carbs fat fiber sugar sodium
    potassium : Q) (key : string) :
  is_Some (entry calories protein carbs fat fiber sugar sodium potassium
             !! key) <-> key ∈ localKeys.
Proof.
  split.
  - intros [q Hq]. apply elem_of_list_to_map_2 in Hq.
    repeat (apply elem_of_cons in Hq as [[= -> ->] | Hq];
            [apply (bool_decide_unpack _); by vm_compute|]).
    by apply elem_of_nil in Hq.
  - intros Hin. unfold localKeys in Hin.
    repeat (apply elem_of_cons in Hin as [-> | Hin]; [by eexists|]).
    by apply elem_of_nil in Hin.
Qed.

Lemma getLocalNutritionData_is_Some (foodName key : string) :
  is_Some (getLocalNutritionData foodName !! key) <-> key ∈ localKeys.
Proof.
  unfold getLocalNutritionData.
  generalize (JS.toLowerCase foodName). intros lowerFoodName.
  assert (Hdb : Forall (fun kv : string * Nutrition =>
                          is_Some (kv.2 !! key) <-> key ∈ localKeys)
                  nutritionDB).
  { repeat (apply Forall_cons; split; [apply entry_is_Some|]).
    apply Forall_nil_2. }
  induction Hdb as [|[k n] entries Hk Hdb IH]; simpl.
  - apply entry_is_Some.
  - destruct (_ || _); [exact Hk | exact IH].
Qed.

Lemma getFoodNutrition_offline (env : Env) (foodName : string) :
  hasApiKey env = false ->
  getFoodNutrition env foodName = getLocalNutritionData foodName.
Proof. intros Hkey. unfold getFoodNutrition. by rewrite Hkey. Qed.

Lemma quantityOr0_nonneg (nutrients : gmap string EdamamNutrient)
    (code : string) :
  (forall nutrient q,
     nutrients !! code = Some nutrient -> quantity nutrient = Some q ->
     (0 <= q)%Q) ->
  (0 <= quantityOr0 nutrients code)%Q.
Proof.
  intros Hq. unfold quantityOr0. apply or_default_nonneg; [done|].
  intros c Hc. destruct (nutrients !! code) as [nutrient|] eqn:Hn; [|done].
  by apply (Hq nutrient).
Qed.

Lemma parseEdamamResponse_nonNegative (nutrients : gmap string EdamamNutrient) :
  (forall code nutrient q,
     nutrients !! code = Some nutrient -> quantity nutrient = Some q ->
     (0 <= q)%Q) ->
  nonNegative (parseEdamamResponse nutrients).
Proof.
  intros Hq key q Hkey. apply elem_of_list_to_map_2 in Hkey.
  repeat (apply elem_of_cons in Hkey as [[= -> ->] | Hkey];
          [apply quantityOr0_nonneg, Hq|]).
  by apply elem_of_nil in Hkey.
Qed.

Lemma getFoodNutrition_nonNegative (env : Env) (foodName : string) :
  apiNonNegative env -> nonNegative (getFoodNutrition env foodName).
Proof.
  intros Hapi. unfold getFoodNutrition.
  destruct (hasApiKey env); [|apply getLocalNutritionData_nonNegative].
  destruct (axiosGet env foodName) as [|[[[nutrients|]]|]] eqn:Hget;
    try apply getLocalNutritionData_nonNegative.
  apply parseEdamamResponse_nonNegative. intros code nutrient q Hn Hq.
  by eapply (Hapi foodName _ nutrients code nutrient q).
Qed.

Lemma combineFood_lookup (env : Env) (key : string) acc food (a : Q) :
  acc !! key = Some a ->
  exists a', combineFood env acc food !! key = Some a' /\
             (a' == a + contribution env key food)%Q.
Proof.
  intros Ha. unfold combineFood, contribution.
  rewrite lookup_addWeighted, Ha. simpl. eexists. split; [done|].
  destruct (getFoodNutrition env (name food) !! key) as [v|]; [|lra].
  destruct (JS.truthy v); lra.
Qed.

Lemma combineLocal_lookup (key : string) acc food (a : Q) :
  acc !! key = Some a ->
  exists a', combineLocal acc food !! key = Some a' /\
             (a' == a + localContribution key food)%Q.
Proof.
  intros Ha. unfold combineLocal, localContribution.
  rewrite lookup_addWeightedOr0, Ha. simpl. eexists. split; [done|]. lra.
Qed.

Lemma foldl_lookup_sum {A} (step : Nutrition -> A -> Nutrition)
    (c : A -> Q) (key : string) :
  (forall acc x a, acc !! key = Some a ->
     exists a', step acc x !! key = Some a' /\ (a' == a + c x)%Q) ->
  forall (l : list A) acc a, acc !! key = Some a ->
    exists q, foldl step acc l !! key = Some q /\
              (q == a + sumQ (c <$> l))%Q.
Proof.
  intros Hstep l. induction l as [|x l IH]; intros acc a Ha.
  - exists a. split; [done|]. unfold sumQ. simpl. lra.
  - destruct (Hstep acc x a Ha) as (a' & Ha' & Heq).
    destruct (IH _ _ Ha') as (q & Hq & Hsum).
    exists q. split; [done|]. rewrite fmap_cons. unfold sumQ in *.
    cbn [foldr]. lra.
Qed.

Lemma getNutritionalData_sum (env : Env) (foods : list FoodItem)
    (key : string) :
  key ∈ nutrientKeys ->
  exists q, getNutritionalData env foods !! key = Some q /\
            (q == sumQ (contribution env key <$> foods))%Q.
Proof.
  intros Hkey. rewrite getNutritionalData_foldl.
  destruct (foldl_lookup_sum (combineFood env) (contribution env key) key
              (fun acc x a => combineFood_lookup env key acc x a)
              foods zeroNutrition 0%Q) as (q & Hq & Hsum).
  { rewrite zeroNutrition_lookup. by rewrite decide_True. }
  exists q. split; [done|]. lra.
Qed.

Lemma getFallbackNutrition_sum (foods : list FoodItem) (key : string) :
  key ∈ nutrientKeys ->
  exists q, getFallbackNutrition foods !! key = Some q /\
            (q == sumQ (localContribution key <$> foods))%Q.
Proof.
  intros Hkey. unfold getFallbackNutrition.
  destruct (foldl_lookup_sum combineLocal (localContribution key) key
              (fun acc x a => combineLocal_lookup key acc x a)
              foods zeroNutrition 0%Q) as (q & Hq & Hsum).
  { rewrite zeroNutrition_lookup. by rewrite decide_True. }
  exists q. split; [done|]. lra.
Qed.


Lemma sumQ_ext {A} (f g : A -> Q) (l : list A) :
  (forall x, (f x == g x)%Q) -> (sumQ (f <$> l) == sumQ (g <$> l))%Q.
Proof.
  intros Hfg. unfold sumQ. induction l as [|x l IH]; [simpl; lra|].
  rewrite !fmap_cons. cbn [foldr]. specialize (Hfg x). lra.
Qed.

Lemma contribution_offline (env : Env) (key : string) food :
  hasApiKey env = false ->
  (contribution env key food == localContribution key food)%Q.
Proof.
  intros Hkey. unfold contribution, localContribution.
  rewrite (getFoodNutrition_offline env _ Hkey).
  destruct (getLocalNutritionData (name food) !! key) as [v|]; simpl; [|lra].
  destruct (JS.truthy v); lra.
Qed.

End aggregator_more.

(** X6: the local lookup returns the vector of the first table entry, in
    the order of the table, whose key is contained in the lowercased food
    name or contains it; when no key is so related it returns the default
    vector. *)
Theorem getLocalNutritionData_first_match (foodName : string) :
  (exists before key nutrition after,
     nutritionDB = before ++ (key, nutrition) :: after /\
     related (JS.toLowerCase foodName) key /\
     (forall k n, (k, n) ∈ before -> ~ related (JS.toLowerCase foodName) k) /\
     getLocalNutritionData foodName = nutrition) \/
  ((forall k n, (k, n) ∈ nutritionDB ->
      ~ related (JS.toLowerCase foodName) k) /\
   getLocalNutritionData foodName = defaultNutrition).
Proof.
  unfold getLocalNutritionData.
  destruct (findBestMatch (JS.toLowerCase foodName) nutritionDB)
    as [nutrition|] eqn:Hfind.
  - left. apply findBestMatch_Some in Hfind
      as (before & key & after & Hdb & Hrel & Hno).
    by exists before, key, nutrition, after.
  - right. split; [|done]. by apply findBestMatch_None.
Qed.

(** X7: no key of the local table is shadowed by an earlier one: a food
    name that equals a table key, in any letter case, gets the vector of
    that key. *)
Theorem getLocalNutritionData_table_key (key foodName : string)
    (nutrition : Nutrition) :
  (key, nutrition) ∈ nutritionDB ->
  JS.toLowerCase foodName = key ->
  getLocalNutritionData foodName = nutrition.
Proof.
  intros Hin Hlower. unfold getLocalNutritionData. rewrite Hlower.
  unfold nutritionDB in Hin.
  repeat (apply elem_of_cons in Hin as [[= -> ->] | Hin]; [by vm_compute|]).
  by apply elem_of_nil in Hin.
Qed.

Lemma getLocalNutritionData_table_key_witness :
  getLocalNutritionData "Potato" = entry 77 2 17 0.1 2.2 0.8 6 421.
Proof.
  apply (getLocalNutritionData_table_key "potato" "Potato").
  - unfold nutritionDB. do 6 apply list_elem_of_further.
    apply list_elem_of_here.
  - reflexivity.
Defined.

(** X8: a local vector carries the eight keys of the table literals and no
    other; so without an API key the seven remaining keys of the meal-level
    vector (cholesterol, saturatedFat, transFat, vitaminA, vitaminC,
    calcium, iron) stay at 0 whatever the foods are, on the main path and
    on the fallback path. *)
Theorem getNutritionalData_offline_api_keys_zero (env : Env)
    (recognizedFoods : list FoodItem) (key : string) :
  hasApiKey env = false ->
  key ∈ apiOnlyKeys ->
  (forall foodName, dom (getLocalNutritionData foodName)
                    = list_to_set localKeys) /\
  getNutritionalData env recognizedFoods !! key = Some 0%Q /\
  exists q, getFallbackNutrition recognizedFoods !! key = Some q /\
            (q == 0)%Q.
Proof.
  intros Hoff Hkey.
  assert (Hnone : forall foodName,
            getLocalNutritionData foodName !! key = None).
  { intros foodName. apply eq_None_not_Some.
    rewrite getLocalNutritionData_is_Some. unfold apiOnlyKeys in Hkey.
    repeat (apply elem_of_cons in Hkey as [-> | Hkey];
            [apply (bool_decide_unpack _); by vm_compute|]).
    by apply elem_of_nil in Hkey. }
  assert (Hzero : zeroNutrition !! key = Some 0%Q).
  { rewrite zeroNutrition_lookup. apply decide_True.
    unfold apiOnlyKeys in Hkey.
    repeat (apply elem_of_cons in Hkey as [-> | Hkey];
            [apply (bool_decide_unpack _); by vm_compute|]).
    by apply elem_of_nil in Hkey. }
  split_and!.
  - intros foodName. apply set_eq. intros k.
    by rewrite elem_of_dom, getLocalNutritionData_is_Some, elem_of_list_to_set.
  - rewrite getNutritionalData_foldl. revert Hzero.
    generalize zeroNutrition.
    induction recognizedFoods as [|food foods IH]; intros acc Hacc; [done|].
    simpl. apply IH. unfold combineFood.
    rewrite lookup_addWeighted, Hacc, (getFoodNutrition_offline env _ Hoff).
    by rewrite Hnone.
  - unfold getFallbackNutrition.
    assert (Hq : exists q, zeroNutrition !! key = Some q /\ (q == 0)%Q)
      by (exists 0%Q; split; [done | lra]).
    revert Hq. generalize zeroNutrition.
    induction recognizedFoods as [|food foods IH]; intros acc Hacc; [done|].
    simpl. apply IH. destruct Hacc as (q & Hacc & Hq0).
    rewrite lookup_addWeightedOr0, Hacc, Hnone. simpl. eexists.
    split; [done|]. lra.
Qed.

Lemma getNutritionalData_offline_api_keys_zero_witness :
  getNutritionalData offlineEnv riceAndChicken !! "cholesterol" = Some 0%Q.
Proof.
  apply (getNutritionalData_offline_api_keys_zero offlineEnv riceAndChicken
           "cholesterol").
  - reflexivity.
  - apply (bool_decide_unpack _). by vm_compute.
Defined.

(** X9: [parseEdamamResponse] always yields the fifteen nutrient keys,
    whatever codes the response holds; a code that is missing, or has no
    quantity, or a quantity of 0, reads as 0, so an empty response parses
    to the all-zero vector; the parsed amounts are non-negative when the
    reported quantities are. *)
Theorem parseEdamamResponse_total (nutrients : gmap string EdamamNutrient) :
  dom (parseEdamamResponse nutrients) = list_to_set nutrientKeys /\
  parseEdamamResponse ∅ = zeroNutrition /\
  ((forall code nutrient q,
      nutrients !! code = Some nutrient -> quantity nutrient = Some q ->
      (0 <= q)%Q) ->
   nonNegative (parseEdamamResponse nutrients)).
Proof.
  split_and!.
  - unfold parseEdamamResponse. by rewrite dom_list_to_map_L.
  - by vm_compute.
  - apply parseEdamamResponse_nonNegative.
Qed.

(** X10: when every quantity the nutrition API reports is non-negative
    and every confidence is non-negative, every value of the meal-level
    vector is non-negative, whichever foods are answered by the API and
    whichever fall back to the local table. *)
Theorem getNutritionalData_nonNegative_api (env : Env)
    (recognizedFoods : list FoodItem) (key : string) :
  apiNonNegative env ->
  Forall (fun food => forall c, confidence food = Some c -> (0 <= c)%Q)
    recognizedFoods ->
  key ∈ nutrientKeys ->
  exists q, getNutritionalData env recognizedFoods !! key = Some q /\
            (0 <= q)%Q.
Proof.
  intros Hapi Hconf Hkey.
  assert (Hwf : wellFormed (getNutritionalData env recognizedFoods)).
  { rewrite getNutritionalData_foldl.
    eapply foldl_wellFormed; [|exact Hconf|apply zeroNutrition_wellFormed].
    intros acc x Hc Hacc.
    apply addWeighted_wellFormed; [|by apply or_default_nonneg|done].
    by apply getFoodNutrition_nonNegative. }
  destruct Hwf as [Hkeys Hnn]. apply Hkeys in Hkey as [q Hq].
  exists q. split; [done|]. by eapply Hnn.
Qed.

Lemma onlineEnv_nonNegative : apiNonNegative onlineEnv.
Proof.
  intros foodName data nutrients code nutrient q Hget Hdata Hcode Hq.
  simpl in Hget. destruct (String.eqb foodName "rice"); [|done].
  injection Hget as <-. injection Hdata as <-.
  apply elem_of_list_to_map_2 in Hcode.
  repeat (apply elem_of_cons in Hcode as [[= -> ->] | Hcode];
          [simpl in Hq; first [done | injection Hq as <-; by vm_compute]|]).
  by apply elem_of_nil in Hcode.
Qed.

Lemma getNutritionalData_nonNegative_api_witness :
  exists q,
    getNutritionalData onlineEnv riceAndChicken !! "calories" = Some q /\
    (0 <= q)%Q.
Proof.
  apply (getNutritionalData_nonNegative_api onlineEnv riceAndChicken
           "calories").
  - apply onlineEnv_nonNegative.
  - repeat constructor; intros c [= <-]; by vm_compute.
  - apply (bool_decide_unpack _). by vm_compute.
Defined.





(** X13: when the service has no API key, the fallback path
    ([getFallbackNutrition], taken when the main path throws) computes the
    same meal-level values as the main path. *)
Theorem getFallbackNutrition_agrees_offline (env : Env)
    (recognizedFoods : list FoodItem) (key : string) :
  hasApiKey env = false ->
  key ∈ nutrientKeys ->
  exists q q',
    getNutritionalData env recognizedFoods !! key = Some q /\
    getFallbackNutrition recognizedFoods !! key = Some q' /\
    (q == q')%Q.
Proof.
  intros Hoff Hkey.
  destruct (getNutritionalData_sum env recognizedFoods key Hkey)
    as (q & Hq & Hsum).
  destruct (getFallbackNutrition_sum recognizedFoods key Hkey)
    as (q' & Hq' & Hsum').
  exists q, q'. split_and!; [done..|].
  rewrite Hsum, Hsum'. apply sumQ_ext. intros food.
  by apply contribution_offline.
Qed.

Lemma getFallbackNutrition_agrees_offline_witness :
  exists q q',
    getNutritionalData offlineEnv riceAndChicken !! "sodium" = Some q /\
    getFallbackNutrition riceAndChicken !! "sodium" = Some q' /\
    (q == q')%Q.
Proof.
  apply (getFallbackNutrition_agrees_offline offlineEnv riceAndChicken
           "sodium").
  - reflexivity.
  - apply (bool_decide_unpack _). by vm_compute.
Defined.

(** ** The risk evaluator *)

Section risk_more.

Implicit Types (nutrition : Nutrition) (conditions : list HealthCondition).

Lemma elem_of_risks nutrition (userProfile : UserProfile) (f : RiskFinding) :
  let conditions := default [] (healthConditions userProfile) in
  f ∈ risks (analyzeHealthRisks nutrition (Some userProfile)) <->
  (holds conditions "diabetes" /\
     exists v, nutrition !! "carbs" = Some v /\ (60 < v)%Q /\
               f = carbsFinding v) \/
  (holds conditions "diabetes" /\
     exists v, nutrition !! "sugar" = Some v /\ (15 < v)%Q /\
               f = sugarFinding v) \/
  (holds conditions "bp" /\
     exists v, nutrition !! "sodium" = Some v /\ (500 < v)%Q /\
               f = sodiumFinding v) \/
  (holds conditions "kidney" /\
     exists v, nutrition !! "potassium" = Some v /\ (400 < v)%Q /\
               f = potassiumFinding v) \/
  (holds conditions "cholesterol" /\
     exists v, nutrition !! "fat" = Some v /\ (20 < v)%Q /\
               f = fatFinding v).
Proof.
  intros conditions.
  destruct (analyzeHealthRisks_rules nutrition userProfile) as [Hr _].
  rewrite Hr, !elem_of_app, !elem_of_rule. fold conditions.
  by rewrite !hasCondition_spec.
Qed.

Lemma risks_tableFinding nutrition (userProfile : option UserProfile)
    (f : RiskFinding) :
  f ∈ risks (analyzeHealthRisks nutrition userProfile) -> tableFinding f.
Proof.
  destruct userProfile as [userProfile|]; [|by intros ?%elem_of_nil].
  rewrite elem_of_risks. unfold tableFinding.
  intros [H | [H | [H | [H | H]]]];
    destruct H as (_ & v & _ & _ & ->); simpl; tauto.
Qed.

Lemma rule_types_sublist (on : bool) (x : option Q) (limit : Q)
    (make : Q -> RiskFinding) (t : RiskType) :
  (forall v, type (make v) = t) ->
  type <$> rule on x limit make `sublist_of` [t].
Proof.
  intros Ht. unfold rule, pushIfAbove. destruct on; [|apply sublist_nil_l].
  destruct x as [v|]; [|apply sublist_nil_l].
  destruct (JS.gt v limit); [|apply sublist_nil_l].
  simpl. by rewrite Ht.
Qed.

Lemma hasCondition_ext conditions conditions' (code : string) :
  (holds conditions code <-> holds conditions' code) ->
  hasCondition conditions code = hasCondition conditions' code.
Proof.
  rewrite <- !hasCondition_spec. intros Hiff.
  destruct (hasCondition conditions code), (hasCondition conditions' code);
    try done; [symmetry|]; by apply Hiff.
Qed.

Lemma hasCondition_false conditions (code : string) :
  ~ holds conditions code -> hasCondition conditions code = false.
Proof.
  rewrite <- hasCondition_spec. by destruct (hasCondition conditions code).
Qed.

Lemma foldl_pushRecommendation_app (acc : list Recommendation)
    (l : list RiskFinding) :
  foldl pushRecommendation acc l = acc ++ foldl pushRecommendation [] l.
Proof.
  revert acc. induction l as [|f l IH]; intros acc; simpl.
  - by rewrite app_nil_r.
  - rewrite (IH (pushRecommendation acc f)), (IH (pushRecommendation [] f)).
    unfold pushRecommendation. destruct (type f); simpl;
      by rewrite <- ?app_assoc, ?app_nil_r.
Qed.

Lemma pushRecommendation_length (f : RiskFinding) :
  length (pushRecommendation [] f) <= 1.
Proof. unfold pushRecommendation. destruct (type f); simpl; lia. Qed.

Lemma foldl_pushRecommendation_fits (l : list RiskFinding) :
  Forall tableFinding l -> Forall2 fits l (foldl pushRecommendation [] l).
Proof.
  induction 1 as [|f l Hf Hl IH]; simpl; [constructor|].
  rewrite foldl_pushRecommendation_app.
  assert (exists r, pushRecommendation [] f = [r] /\ fits f r) as (r & -> & Hr).
  { unfold pushRecommendation, fits.
    destruct Hf as [[[Ht | Ht] Hs] | [[Ht | [Ht | Ht]] Hs]]; rewrite Ht, Hs;
      eexists; (split; [reflexivity|]); simpl; split_and!; done. }
  by constructor.
Qed.

End risk_more.

(** X14: the rule table is complete: a finding of a given type is produced
    exactly when the user holds the condition of its rule and the nutrient
    of the rule is strictly above its threshold (diabetes: carbs > 60 and
    sugar > 15; bp: sodium > 500; kidney: potassium > 400; cholesterol:
    fat > 20); no finding is ever of type high_calories. *)
Theorem analyzeHealthRisks_rule_table (nutrition : Nutrition)
    (userProfile : UserProfile) :
  let conditions := default [] (healthConditions userProfile) in
  let analysis := analyzeHealthRisks nutrition (Some userProfile) in
  (found analysis high_carbs <->
     holds conditions "diabetes" /\ exceeds nutrition "carbs" 60) /\
  (found analysis high_sugar <->
     holds conditions "diabetes" /\ exceeds nutrition "sugar" 15) /\
  (found analysis high_sodium <->
     holds conditions "bp" /\ exceeds nutrition "sodium" 500) /\
  (found analysis high_potassium <->
     holds conditions "kidney" /\ exceeds nutrition "potassium" 400) /\
  (found analysis high_fat <->
     holds conditions "cholesterol" /\ exceeds nutrition "fat" 20) /\
  ~ found analysis high_calories.
Proof.
  intros conditions analysis. unfold found, exceeds, analysis.
  setoid_rewrite elem_of_risks. fold conditions.
  split_and!; [split..|].
  all: try (intros (f & [H | [H | [H | [H | H]]]] & Ht);
            destruct H as (Hc & v & Hv & Hlt & ->); try discriminate Ht;
            (split; [done | by exists v])).
  - intros (Hc & v & Hv & Hlt). exists (carbsFinding v).
    split; [|done]. left. split; [done|]. by exists v.
  - intros (Hc & v & Hv & Hlt). exists (sugarFinding v).
    split; [|done]. right; left. split; [done|]. by exists v.
  - intros (Hc & v & Hv & Hlt). exists (sodiumFinding v).
    split; [|done]. do 2 right; left. split; [done|]. by exists v.
  - intros (Hc & v & Hv & Hlt). exists (potassiumFinding v).
    split; [|done]. do 3 right; left. split; [done|]. by exists v.
  - intros (Hc & v & Hv & Hlt). exists (fatFinding v).
    split; [|done]. do 4 right. split; [done|]. by exists v.
Qed.

(** X15: the types of the findings come in the order of the rule table
    (high_carbs, high_sugar, high_sodium, high_potassium, high_fat), each
    at most once: there are never more than five findings, and never more
    than one warning. *)
Theorem analyzeHealthRisks_table_order (nutrition : Nutrition)
    (userProfile : option UserProfile) :
  let analysis := analyzeHealthRisks nutrition userProfile in
  type <$> risks analysis `sublist_of` tableOrder /\
  NoDup (type <$> risks analysis) /\
  length (risks analysis) <= 5 /\
  length (warnings analysis) <= 1.
Proof.
  intros analysis.
  assert (Hsub : type <$> risks analysis `sublist_of` tableOrder).
  { unfold analysis. destruct userProfile as [userProfile|];
      [|apply sublist_nil_l].
    destruct (analyzeHealthRisks_rules nutrition userProfile) as [Hr _].
    rewrite Hr, !fmap_app.
    change tableOrder with ([high_carbs] ++ [high_sugar] ++ [high_sodium] ++
                            [high_potassium] ++ [high_fat]).
    repeat apply sublist_app; by apply rule_types_sublist. }
  split_and!.
  - done.
  - eapply sublist_NoDup; [|exact Hsub].
    apply (bool_decide_unpack _). by vm_compute.
  - apply sublist_length in Hsub. by rewrite length_fmap in Hsub.
  - unfold analysis. destruct userProfile as [userProfile|]; [|simpl; lia].
    destruct (analyzeHealthRisks_rules nutrition userProfile) as [_ Hw].
    rewrite Hw. unfold pushIfAbove.
    destruct (nutrition !! "calories") as [v|]; [|simpl; lia].
    destruct (JS.gt v 600); simpl; lia.
Qed.

(** X16: only the set of condition codes a user holds matters: two
    condition lists that hold the same codes (in any order, with any
    repetitions and details) give the same analysis of every meal. *)
Theorem analyzeHealthRisks_condition_set (nutrition : Nutrition)
    (conditions conditions' : list HealthCondition) :
  (forall code, holds conditions code <-> holds conditions' code) ->
  analyzeHealthRisks nutrition
    (Some {| healthConditions := Some conditions |}) =
  analyzeHealthRisks nutrition
    (Some {| healthConditions := Some conditions' |}).
Proof.
  intros Hsame. unfold analyzeHealthRisks. simpl.
  by rewrite (hasCondition_ext conditions conditions' "diabetes"),
    (hasCondition_ext conditions conditions' "bp"),
    (hasCondition_ext conditions conditions' "kidney"),
    (hasCondition_ext conditions conditions' "cholesterol").
Qed.

Lemma analyzeHealthRisks_condition_set_witness :
  analyzeHealthRisks starchySaltyMeal (Some (user ["diabetes"; "bp"])) =
  analyzeHealthRisks starchySaltyMeal
    (Some (user ["bp"; "diabetes"; "bp"])).
Proof.
  apply (analyzeHealthRisks_condition_set starchySaltyMeal).
  intros code. unfold holds. split; intros (c & Hc & <-); exists c;
    (split; [|done]); simpl in *;
    repeat (apply elem_of_cons in Hc as [-> | Hc];
            [first [ apply list_elem_of_here
                   | apply list_elem_of_further, list_elem_of_here
                   | do 2 apply list_elem_of_further;
                     apply list_elem_of_here ]|]);
    by apply elem_of_nil in Hc.
Defined.

(** X17: a user who holds none of diabetes, bp, kidney and cholesterol
    gets no finding, whatever the meal and whatever other condition codes
    the profile lists; only the calorie warning can appear. *)
Theorem analyzeHealthRisks_other_conditions (nutrition : Nutrition)
    (userProfile : UserProfile) :
  let conditions := default [] (healthConditions userProfile) in
  ~ holds conditions "diabetes" -> ~ holds conditions "bp" ->
  ~ holds conditions "kidney" -> ~ holds conditions "cholesterol" ->
  risks (analyzeHealthRisks nutrition (Some userProfile)) = [].
Proof.
  intros conditions Hd Hbp Hk Hc.
  destruct (analyzeHealthRisks_rules nutrition userProfile) as [Hr _].
  rewrite Hr. fold conditions.
  by rewrite !hasCondition_false.
Qed.

Lemma analyzeHealthRisks_other_conditions_witness :
  risks (analyzeHealthRisks starchySaltyMeal
           (Some (user ["thyroid"; "obesity"]))) = [].
Proof.
  apply (analyzeHealthRisks_other_conditions starchySaltyMeal
           (user ["thyroid"; "obesity"]));
    intros Hc%hasCondition_spec; by vm_compute in Hc.
Defined.

(** X18: more of every nutrient never clears a finding: when each amount
    of a meal is at most the amount of a second meal, every finding of the
    first has a finding of the same type and severity in the second, and a
    calorie warning for the first means one for the second. *)
Theorem analyzeHealthRisks_monotone (small large : Nutrition)
    (userProfile : option UserProfile) :
  keywiseLe small large ->
  (forall f, f ∈ risks (analyzeHealthRisks small userProfile) ->
     exists f', f' ∈ risks (analyzeHealthRisks large userProfile) /\
                type f' = type f /\ severity f' = severity f) /\
  (warnings (analyzeHealthRisks small userProfile) <> [] ->
   warnings (analyzeHealthRisks large userProfile) <> []).
Proof.
  intros Hle. destruct userProfile as [userProfile|];
    [|split; [by intros ? ?%elem_of_nil | done]].
  split.
  - intros f. rewrite elem_of_risks.
    intros [H | [H | [H | [H | H]]]];
      destruct H as (Hc & v & Hv & Hlt & ->);
      destruct (Hle _ _ Hv) as (v' & Hv' & Hvv').
    + exists (carbsFinding v'). split; [|done]. apply elem_of_risks.
      left. split; [done|]. exists v'. split_and!; [done| |done]. lra.
    + exists (sugarFinding v'). split; [|done]. apply elem_of_risks.
      right; left. split; [done|]. exists v'. split_and!; [done| |done]. lra.
    + exists (sodiumFinding v'). split; [|done]. apply elem_of_risks.
      do 2 right; left. split; [done|]. exists v'.
      split_and!; [done| |done]. lra.
    + exists (potassiumFinding v'). split; [|done]. apply elem_of_risks.
      do 3 right; left. split; [done|]. exists v'.
      split_and!; [done| |done]. lra.
    + exists (fatFinding v'). split; [|done]. apply elem_of_risks.
      do 4 right. split; [done|]. exists v'. split_and!; [done| |done]. lra.
  - destruct (analyzeHealthRisks_rules small userProfile) as [_ Hs].
    destruct (analyzeHealthRisks_rules large userProfile) as [_ Hl].
    rewrite Hs, Hl. unfold pushIfAbove.
    destruct (small !! "calories") as [v|] eqn:Hv; [|done].
    destruct (JS.gt v 600) eqn:Hgt; [|done]. intros _.
    destruct (Hle _ _ Hv) as (v' & -> & Hvv').
    apply gt_spec in Hgt.
    assert (JS.gt v' 600 = true) as -> by (apply gt_spec; lra). done.
Qed.

Lemma analyzeHealthRisks_monotone_witness :
  (forall f, f ∈ risks (analyzeHealthRisks starchySaltyMeal
                          (Some (user ["diabetes"; "bp"]))) ->
     exists f', f' ∈ risks (analyzeHealthRisks doubledMeal
                              (Some (user ["diabetes"; "bp"]))) /\
                type f' = type f /\ severity f' = severity f) /\
  (warnings (analyzeHealthRisks starchySaltyMeal
               (Some (user ["diabetes"; "bp"]))) <> [] ->
   warnings (analyzeHealthRisks doubledMeal
               (Some (user ["diabetes"; "bp"]))) <> []).
Proof.
  apply (analyzeHealthRisks_monotone starchySaltyMeal doubledMeal).
  intros key v Hv. unfold starchySaltyMeal, doubledMeal, mealOf in *.
  apply lookup_union_Some_raw in Hv as [Hv | [_ Hv]].
  - apply elem_of_list_to_map_2 in Hv.
    repeat (apply elem_of_cons in Hv as [[= -> ->] | Hv];
            [eexists; split; [by vm_compute | by vm_compute]|]).
    by apply elem_of_nil in Hv.
  - rewrite zeroNutrition_lookup in Hv.
    destruct (decide (key ∈ nutrientKeys)) as [Hk|]; [|done].
    injection Hv as <-. unfold nutrientKeys in Hk.
    repeat (apply elem_of_cons in Hk as [-> | Hk];
            [eexists; split; [by vm_compute | by vm_compute]|]).
    by apply elem_of_nil in Hk.
Defined.

(** X19: the recommendations match the findings one for one, in order:
    each is dietary, of high priority for a danger finding and of medium
    priority for a warning finding; the user profile and the warnings play
    no part, and there are never more recommendations than findings. *)
Theorem generateRecommendations_fit (nutrition : Nutrition)
    (userProfile profile' : option UserProfile)
    (healthAnalysis : HealthAnalysis) :
  Forall2 fits (risks (analyzeHealthRisks nutrition userProfile))
    (generateRecommendations (analyzeHealthRisks nutrition userProfile)
       profile') /\
  length (generateRecommendations healthAnalysis profile')
    <= length (risks healthAnalysis).
Proof.
  split.
  - apply foldl_pushRecommendation_fits, Forall_forall.
    intros f. apply risks_tableFinding.
  - unfold generateRecommendations.
    induction (risks healthAnalysis) as [|f l IH]; simpl; [lia|].
    rewrite foldl_pushRecommendation_app, length_app.
    pose proof (pushRecommendation_length f). lia.
Qed.

(** ** The categorizer, the virtual risk level and the pipeline *)

Section pipeline_more.

Lemma risk_types_sublist (nutrition : Nutrition)
    (userProfile : option UserProfile) :
  type <$> risks (analyzeHealthRisks nutrition userProfile)
    `sublist_of` tableOrder.
Proof.
  destruct userProfile as [userProfile|]; [|apply sublist_nil_l].
  destruct (analyzeHealthRisks_rules nutrition userProfile) as [Hr _].
  rewrite Hr, !fmap_app.
  change tableOrder with ([high_carbs] ++ [high_sugar] ++ [high_sodium] ++
                          [high_potassium] ++ [high_fat]).
  repeat apply sublist_app; by apply rule_types_sublist.
Qed.

Lemma warnings_length (nutrition : Nutrition)
    (userProfile : option UserProfile) :
  length (warnings (analyzeHealthRisks nutrition userProfile)) <= 1.
Proof.
  destruct userProfile as [userProfile|]; [|simpl; lia].
  destruct (analyzeHealthRisks_rules nutrition userProfile) as [_ Hw].
  rewrite Hw. unfold pushIfAbove.
  destruct (nutrition !! "calories") as [v|]; [|simpl; lia].
  destruct (JS.gt v 600); simpl; lia.
Qed.

Lemma analyzeHealthRisks_zero (userProfile : option UserProfile) :
  analyzeHealthRisks zeroNutrition userProfile
  = {| risks := []; warnings := [] |}.
Proof.
  destruct userProfile as [userProfile|]; [|done].
  unfold analyzeHealthRisks.
  by destruct (hasCondition _ "diabetes"), (hasCondition _ "bp"),
    (hasCondition _ "kidney"), (hasCondition _ "cholesterol").
Qed.

Lemma collectFoodItems_nil (visionResults : VisionResults) :
  (forall l, l ∈ default [] (labelAnnotations visionResults) ->
     ~ labelPasses l) ->
  (forall obj, obj ∈ default [] (localizedObjectAnnotations visionResults) ->
     ~ objectPasses obj) ->
  collectFoodItems visionResults = [].
Proof.
  intros Hl Ho.
  destruct (collectFoodItems visionResults) as [|item rest] eqn:Hc; [done|].
  assert (Hin : item ∈ collectFoodItems visionResults)
    by (rewrite Hc; apply list_elem_of_here).
  rewrite collectFoodItems_app, elem_of_app in Hin.
  rewrite elem_of_foldl_pushLabel, elem_of_foldl_pushObject in Hin.
  destruct Hin as [(l & Hin & Hp & _) | (obj & Hin & Hp & _)].
  - by destruct (Hl l Hin).
  - by destruct (Ho obj Hin).
Qed.


End pipeline_more.

(** X20: the save hook is idempotent: saving a saved meal again changes
    nothing. *)
Theorem preSave_idempotent (this : Meal.Meal) :
  Meal.preSave (Meal.preSave this) = Meal.preSave this.
Proof.
  unfold Meal.preSave. destruct this as [ai cat]. simpl.
  destruct (ai ≫= Meal.healthRisks) as [findings|] eqn:Hf; simpl;
    [|by rewrite Hf].
  destruct (0 <? length (filter (fun risk => severity risk = danger)
                           findings))%nat eqn:Hd; simpl;
    rewrite ?Hf, ?Hd; [done|].
  destruct (0 <? length (filter (fun risk => severity risk = warning)
                           findings))%nat eqn:Hw; simpl;
    rewrite ?Hf, ?Hd, ?Hw; [done|].
  destruct (length findings =? 0)%nat eqn:He; simpl;
    by rewrite ?Hf, ?Hd, ?Hw, ?He.
Qed.

(** X21: the virtual risk level agrees with the category the save hook
    assigns: after a save a meal of risk level high is unhealthy and one of
    level medium is moderate; the level is unknown exactly when no findings
    list exists, and then the save changes nothing; the save never changes
    the risk level. *)
Theorem riskLevel_agrees_with_category (this : Meal.Meal) :
  Meal.riskLevel (Meal.preSave this) = Meal.riskLevel this /\
  (Meal.riskLevel this = Meal.level_high ->
   Meal.category (Meal.preSave this) = Some Meal.unhealthy) /\
  (Meal.riskLevel this = Meal.level_medium ->
   Meal.category (Meal.preSave this) = Some Meal.moderate) /\
  (Meal.riskLevel this = Meal.level_unknown <->
   Meal.aiAnalysis this ≫= Meal.healthRisks = None) /\
  (Meal.riskLevel this = Meal.level_unknown -> Meal.preSave this = this).
Proof.
  unfold Meal.riskLevel, Meal.preSave. destruct this as [ai cat]. simpl.
  destruct (ai ≫= Meal.healthRisks) as [findings|] eqn:Hf; simpl;
    [|rewrite Hf; by split_and!].
  destruct (0 <? length (filter (fun risk => severity risk = danger)
                           findings))%nat eqn:Hd; simpl;
    rewrite ?Hf, ?Hd; [by split_and!|].
  destruct (0 <? length (filter (fun risk => severity risk = warning)
                           findings))%nat eqn:Hw; simpl;
    rewrite ?Hf, ?Hd, ?Hw; [by split_and!|].
  destruct (length findings =? 0)%nat; simpl; rewrite ?Hf, ?Hd, ?Hw;
    by split_and!.
Qed.



Section pipeline_contract.

Lemma append_assoc (a b c : string) : (a +:+ b) +:+ c = a +:+ b +:+ c.
Proof.
  induction a as [|x a IH]; [done|].
  change (String x ((a +:+ b) +:+ c) = String x (a +:+ b +:+ c)).
  f_equal. exact IH.
Qed.

Lemma toLowerCase_append (a b : string) :
  JS.toLowerCase (a +:+ b) = JS.toLowerCase a +:+ JS.toLowerCase b.
Proof.
  induction a as [|x a IH]; [done|].
  change (String (JS.lowerChar x) (JS.toLowerCase (a +:+ b))
          = String (JS.lowerChar x) (JS.toLowerCase a +:+ JS.toLowerCase b)).
  f_equal. exact IH.
Qed.

Lemma Substring_trans (k a b : string) :
  Substring k a -> Substring a b -> Substring k b.
Proof.
  intros (pre & post & ->) (pre' & post' & ->).
  exists (pre' +:+ pre), (post +:+ post'). by rewrite !append_assoc.
Qed.

Lemma getNutritionalData_keys (env : Env) (recognizedFoods : list FoodItem)
    (key : string) :
  key ∈ nutrientKeys <->
  is_Some (getNutritionalData env recognizedFoods !! key).
Proof.
  rewrite getNutritionalData_foldl.
  assert (Hzero : key ∈ nutrientKeys <-> is_Some (zeroNutrition !! key))
    by apply zeroNutrition_wellFormed.
  revert Hzero. generalize zeroNutrition.
  induction recognizedFoods as [|food foods IH]; intros acc Hacc; [done|].
  simpl. apply IH. unfold combineFood.
  by rewrite lookup_addWeighted, fmap_is_Some.
Qed.

End pipeline_contract.

(** X23: when no detection of the vision response passes the filter, the
    analysis still completes, with an empty food list, the all-zero
    nutrient vector, no finding, no warning and no recommendation,
    whatever the user profile. *)
Theorem analyzeMealImage_nothing_recognized (env : Env)
    (visionResults : VisionResults) (userProfile : option UserProfile)
    (startTime endTime : Z) :
  (forall l, l ∈ default [] (labelAnnotations visionResults) ->
     ~ labelPasses l) ->
  (forall obj, obj ∈ default [] (localizedObjectAnnotations visionResults) ->
     ~ objectPasses obj) ->
  analyzeMealImage env (visionResolves visionResults) userProfile
    startTime endTime
  = inl (emptyResult startTime endTime).
Proof.
  intros Hl Ho. unfold analyzeMealImage, emptyResult. simpl.
  assert (extractFoodItems visionResults = []) as ->.
  { unfold extractFoodItems. by rewrite (collectFoodItems_nil _ Hl Ho). }
  change (getNutritionalData env []) with zeroNutrition.
  by rewrite analyzeHealthRisks_zero.
Qed.

Lemma analyzeMealImage_nothing_recognized_witness :
  analyzeMealImage onlineEnv (visionResolves emptyTable)
    (Some (user ["diabetes"; "bp"])) 100 350
  = inl (emptyResult 100 350).
Proof.
  apply (analyzeMealImage_nothing_recognized onlineEnv emptyTable).
  - intros l Hin Hpass%label_filter_spec. simpl in Hin.
    repeat (apply elem_of_cons in Hin as [-> | Hin];
            [by vm_compute in Hpass|]).
    by apply elem_of_nil in Hin.
  - intros obj Hin. by apply elem_of_nil in Hin.
Defined.

(** X24: the contract of [analyzeMealImage]: when the vision call throws,
    the analysis fails with the message of the error, wrapped twice; when
    it resolves, the analysis always completes, with at most 10 foods, all
    fifteen nutrient keys, at most 5 findings, one recommendation per
    finding and at most one warning. *)
Theorem analyzeMealImage_contract (env : Env) (annotateImage : VisionOutcome)
    (userProfile : option UserProfile) (startTime endTime : Z) :
  match annotateImage with
  | visionThrows error_message =>
      analyzeMealImage env annotateImage userProfile startTime endTime
      = inr ("Image analysis failed: " +:+ "Vision API failed: "
               +:+ error_message)
  | visionResolves _ =>
      exists r,
        analyzeMealImage env annotateImage userProfile startTime endTime
          = inl r /\
        AnalysisResult.analysisStatus r = completed /\
        AnalysisResult.processingTime r = (endTime - startTime)%Z /\
        length (AnalysisResult.recognizedFoods r) <= 10 /\
        dom (AnalysisResult.nutrition r) = list_to_set nutrientKeys /\
        length (AnalysisResult.healthRisks r) <= 5 /\
        length (AnalysisResult.recommendations r)
          = length (AnalysisResult.healthRisks r) /\
        length (AnalysisResult.warnings r) <= 1
  end.
Proof.
  destruct annotateImage as [error_message | visionResults]; [done|].
  eexists. split; [reflexivity|]. simpl. split_and!.
  - done.
  - done.
  - unfold extractFoodItems, JS.slice0. rewrite length_take. lia.
  - change (dom (getNutritionalData env (extractFoodItems visionResults))
            = list_to_set nutrientKeys).
    apply set_eq. intros key.
    by rewrite elem_of_dom, elem_of_list_to_set, getNutritionalData_keys.
  - rewrite <- (length_fmap type).
    apply (sublist_length _ tableOrder), risk_types_sublist.
  - symmetry. eapply Forall2_length, foldl_pushRecommendation_fits.
    apply Forall_forall. intros f. apply risks_tableFinding.
  - apply warnings_length.
Qed.

(** X25: the food test is closed under containment: a label that contains
    a food-related label (in any letter case) is food-related, so that
    longer descriptions of a food are never filtered out by name. *)
Theorem isFoodRelated_containing (inner outer : string) :
  Substring (JS.toLowerCase inner) (JS.toLowerCase outer) ->
  isFoodRelated inner = true ->
  isFoodRelated outer = true.
Proof.
  intros Hsub (keyword & Hkw & Hin)%isFoodRelated_spec.
  apply isFoodRelated_spec. exists keyword. split; [done|].
  by eapply Substring_trans.
Qed.

Lemma isFoodRelated_containing_witness :
  isFoodRelated "Grilled CHICKEN breast" = true.
Proof.
  apply (isFoodRelated_containing "Chicken" "Grilled CHICKEN breast").
  - exists "grilled "%string, " breast"%string. reflexivity.
  - reflexivity.
Defined.
